(** * The LoRaWAN telemetry application of [main.cpp]

    A shallow embedding of [main], [send_message], [receive_message] and
    [lora_event_handler], and the properties of the uplink/downlink control
    loop they implement.

    The application is a set of run-to-completion callbacks over three
    collaborators that are not part of the repository: the Mbed OS
    [EventQueue], the [LoRaWANInterface] stack and the temperature sensor
    with its CayenneLPP encoder.  Their constants are taken as parameters
    ([Platform]), their answers at run time as an oracle ([Environment]),
    and everything the application does to them is recorded in a [World]. *)

From Stdlib Require Import ZArith String List Bool Lia.
Import ListNotations.

Local Open Scope string_scope.
Local Open Scope list_scope.
Local Open Scope Z_scope.

(** ** Types of the LoRaWAN interface *)

(** [lorawan_event_t], the argument of the application's event callback.
    The handler names twelve enumerators and has a [default] branch;
    [UNLISTED raw] stands for every value of the enumeration type that is
    none of the twelve. *)
Inductive lorawan_event_t : Type :=
| CONNECTED
| DISCONNECTED
| TX_DONE
| TX_TIMEOUT
| TX_ERROR
| TX_CRYPTO_ERROR
| TX_SCHEDULING_ERROR
| RX_DONE
| RX_TIMEOUT
| RX_ERROR
| JOIN_FAILURE
| UPLINK_REQUIRED
| UNLISTED (raw : Z).

(** What the headers of Mbed OS fix and [main.cpp] only names. *)
Class Platform : Type := {
  (** the C type [float] of a temperature reading *)
  c_float : Type;
  (** whether the build defines [TARGET_SIMULATOR] *)
  TARGET_SIMULATOR : bool;
  (** enumerators of [lorawan_status_t] *)
  LORAWAN_STATUS_OK : Z;
  LORAWAN_STATUS_WOULD_BLOCK : Z;
  LORAWAN_STATUS_CONNECT_IN_PROGRESS : Z;
  (** message flags *)
  MSG_UNCONFIRMED_FLAG : Z;
  MSG_CONFIRMED_FLAG : Z;
  (** the integer an event prints as under [%d] *)
  lorawan_event_code : lorawan_event_t -> Z;
  (** [CayenneLPP payload(size); payload.addTemperature(channel, t)]:
      the [getSize()] bytes found at [getBuffer()] afterwards *)
  CayenneLPP_addTemperature : Z -> Z -> c_float -> list Z
}.

(** What the hardware and the network stack answer during one run.  The
    answers to [send], [receive] and the sensor are indexed by the number of
    earlier calls of the same function. *)
Class Environment {P : Platform} : Type := {
  initialize_returns : Z;
  add_app_callbacks_returns : Z;
  set_confirmed_msg_retries_returns : Z;
  disable_adaptive_datarate_returns : Z;
  connect_returns : Z;
  sensor_returns : nat -> c_float;
  (** the [int16_t] returned by the k-th [lorawan.send] *)
  send_returns : nat -> Z;
  (** the [int16_t] returned by the k-th [lorawan.receive] and the bytes
      the stack has for the caller's buffer *)
  receive_returns : nat -> Z * list Z
}.

(** ** Constants of [main.cpp] *)

Definition TX_INTERVAL : Z := 10000.

Definition LORAWAN_DEV_EUI : list Z :=
  [0x00; 0xA7; 0x7C; 0x67; 0xD2; 0xB1; 0x7F; 0xB3].
Definition LORAWAN_APP_EUI : list Z :=
  [0x70; 0xB3; 0xD5; 0x7E; 0xD0; 0x00; 0xAA; 0xDF].
Definition LORAWAN_APP_KEY : list Z :=
  [0x88; 0xFA; 0xC3; 0x1F; 0xB5; 0x3D; 0xCA; 0xE9;
   0xFE; 0xBB; 0x42; 0xF5; 0x69; 0xC5; 0x18; 0x94].

(** ** The world the callbacks act on *)

(** The functions the application posts to the queue: only [send_message]. *)
Inductive callback : Type := cb_send_message.

(** One entry of [ev_queue]: the handle [call_in] returned, the tick at
    which it is due, and the function to call. *)
Record timer : Type := mkTimer {
  timer_id : nat;
  due : Z;
  target : callback
}.

(** Arguments of one [lorawan.send] call. *)
Record tx_call : Type := mkTx {
  tx_port : Z;
  tx_payload : list Z;
  tx_flags : Z
}.

(** Arguments of one [lorawan.receive] call. *)
Record rx_call : Type := mkRx {
  rx_port : Z;
  rx_length : Z;
  rx_flags : Z
}.

(** OTAA parameters handed to [lorawan.connect]. *)
Record lorawan_connect_t : Type := mkConnect {
  dev_eui : list Z;
  app_eui : list Z;
  app_key : list Z;
  nb_trials : Z
}.

(** Configuration calls [main] makes before dispatching. *)
Inductive setup_call : Type :=
| mbed_trace_init
| hum_temp_enable
| lorawan_initialize
| lorawan_add_app_callbacks
| lorawan_set_confirmed_msg_retries (count : Z)
| lorawan_disable_adaptive_datarate
| lorawan_connect (params : lorawan_connect_t).

(** Why a run is followed no further.  [AssertionFailed]: an assertion
    stopped the program.  [OutOfBoundsRead]: the program indexed an array
    outside its bounds; from there on C++ leaves its behaviour undefined,
    and nothing is stated about what a build does next.
    [LoopFuelExhausted]: a loop did not return within its fuel. *)
Inductive crash : Type :=
| AssertionFailed
| OutOfBoundsRead
| LoopFuelExhausted.

Section Application.

Context {P : Platform} {E : Environment}.

(** One argument of a [printf] call. *)
Inductive printf_arg : Type :=
| Int (z : Z)
| Float (f : c_float).

(** One [printf] call: the format string as written in the source and the
    values of its arguments. *)
Definition printf_call : Type := (string * list printf_arg)%type.

Record World : Type := mkWorld {
  (** the queue's clock, in milliseconds *)
  tick : Z;
  (** number of [call_in] calls so far; the next handle *)
  posted : nat;
  (** posted callbacks that have neither run nor been cancelled *)
  pending : list timer;
  (** [break_dispatch] has been called *)
  break_requested : bool;
  (** the [printf] calls made, oldest first *)
  console : list printf_call;
  (** the [lorawan.send] calls made, oldest first *)
  sent : list tx_call;
  (** the [lorawan.receive] calls made, oldest first *)
  received : list rx_call;
  (** number of sensor readings taken *)
  readings : nat;
  (** the configuration calls made, oldest first *)
  setup : list setup_call
}.

(** The world in which [main] starts. *)
Definition boot : World :=
  mkWorld 0 0%nat [] false [] [] [] 0%nat [].

(** ** A state and error monad for the callbacks *)

Inductive Outcome (A : Type) : Type :=
| Ok (a : A) (w : World)
    (** the call returned [a] *)
| Crash (c : crash) (w : World)
    (** the program stopped abnormally *)
| Dispatching (w : World)
    (** the call is still inside [dispatch_forever] when the observed
        stimuli end *).

Arguments Ok {A} a w.
Arguments Crash {A} c w.
Arguments Dispatching {A} w.

Definition M (A : Type) : Type := World -> Outcome A.

Definition ret {A : Type} (a : A) : M A := fun w => Ok a w.

Definition bind {A B : Type} (m : M A) (k : A -> M B) : M B :=
  fun w =>
    match m w with
    | Ok a w' => k a w'
    | Crash c w' => Crash c w'
    | Dispatching w' => Dispatching w'
    end.

Definition abort {A : Type} (c : crash) : M A := fun w => Crash c w.

Notation "x <- m ;; k" := (bind m (fun x => k))
  (at level 61, m at next level, right associativity).
Notation "m ;; k" := (bind m (fun _ => k))
  (at level 61, right associativity).

(** The world a computation leaves behind, whatever its outcome. *)
Definition world_of {A : Type} (o : Outcome A) : World :=
  match o with
  | Ok _ w => w
  | Crash _ w => w
  | Dispatching w => w
  end.

(** ** The collaborators' operations *)

Definition printf (format : string) (args : list printf_arg) : M unit :=
  fun w =>
    Ok tt (mkWorld (tick w) (posted w) (pending w) (break_requested w)
                   (console w ++ [(format, args)])
                   (sent w) (received w) (readings w) (setup w)).

(** Modelled from the spec: the event dispatcher ([EventQueue] of Mbed OS)
    is not in the repository.  [schedule_after(duration, callback)]
    "registers a one-shot callback; returns a handle usable to cancel":
    the entry is added behind those already pending, due [ms] after the
    current tick, and nothing else in the queue changes. *)
Definition call_in (ms : Z) (f : callback) : M nat :=
  fun w =>
    Ok (posted w)
       (mkWorld (tick w) (S (posted w))
                (pending w ++ [mkTimer (posted w) (tick w + ms) f])
                (break_requested w) (console w)
                (sent w) (received w) (readings w) (setup w)).

(** Modelled from the spec: [stop()] "causes [dispatch_forever] to return
    once the currently running callback completes": the request is only
    recorded; the run loop looks at it between callbacks. *)
Definition break_dispatch : M unit :=
  fun w =>
    Ok tt (mkWorld (tick w) (posted w) (pending w) true (console w)
                   (sent w) (received w) (readings w) (setup w)).

(** [sht31.readTemperature()] and [hum_temp->get_temperature(&t)]: the
    next reading of the environment. *)
Definition read_sensor : M c_float :=
  fun w =>
    Ok (sensor_returns (readings w))
       (mkWorld (tick w) (posted w) (pending w) (break_requested w)
                (console w) (sent w) (received w) (S (readings w)) (setup w)).

(** [lorawan.send(port, data, length, flags)]: the call is recorded and
    returns what the environment answers, the number of bytes taken or a
    negative status. *)
Definition lorawan_send (port : Z) (data : list Z) (flags : Z) : M Z :=
  fun w =>
    Ok (send_returns (length (sent w)))
       (mkWorld (tick w) (posted w) (pending w) (break_requested w)
                (console w) (sent w ++ [mkTx port data flags])
                (received w) (readings w) (setup w)).

(** [data] written over the start of [buffer]. *)
Definition overwrite (buffer data : list Z) : list Z :=
  data ++ skipn (length data) buffer.

(** [lorawan.receive(port, buffer, length, flags)]: the stack writes at
    most [len] bytes into the caller's buffer and returns its code. *)
Definition lorawan_receive (port : Z) (buffer : list Z) (len : Z) (flags : Z)
  : M (Z * list Z) :=
  fun w =>
    let answer := receive_returns (length (received w)) in
    Ok (fst answer, overwrite buffer (firstn (Z.to_nat len) (snd answer)))
       (mkWorld (tick w) (posted w) (pending w) (break_requested w)
                (console w) (sent w)
                (received w ++ [mkRx port len flags])
                (readings w) (setup w)).

(** A configuration call of [main]; its status comes from the environment. *)
Definition configure (c : setup_call) (status : Z) : M Z :=
  fun w =>
    Ok status
       (mkWorld (tick w) (posted w) (pending w) (break_requested w)
                (console w) (sent w) (received w) (readings w)
                (setup w ++ [c])).

(** A string literal used as a condition: the array decays to a pointer
    that is never null. *)
Definition literal_as_condition (s : string) : bool := true.

(** Modelled from the spec: [MBED_ASSERT] is a macro of Mbed OS and not in
    the repository; the spec names it a "fatal assertion".  In a build with
    assertions enabled [MBED_ASSERT(expr)] stops the program when [expr] is
    false and goes on when it is true. *)
Definition MBED_ASSERT (expr : bool) : M unit :=
  if expr then ret tt else abort AssertionFailed.

(** ** [send_message] *)

Definition send_message : M unit :=
  temperature <-
    (if TARGET_SIMULATOR
     then read_sensor
     else (t <- read_sensor ;;
           printf "Temperature is %f\n" [Float t] ;;
           ret t)) ;;
  let payload := CayenneLPP_addTemperature 50 1 temperature in
  retcode <- lorawan_send 15 payload MSG_UNCONFIRMED_FLAG ;;
  if retcode <? 0 then
    (if retcode =? LORAWAN_STATUS_WOULD_BLOCK
     then printf "send - Duty cycle violation\r\n" []
     else printf "send() - Error code %d \r\n" [Int retcode]) ;;
    (if retcode =? LORAWAN_STATUS_WOULD_BLOCK
     then call_in 3000 cb_send_message
     else call_in TX_INTERVAL cb_send_message) ;;
    ret tt
  else
    call_in TX_INTERVAL cb_send_message ;;
    printf "%d bytes scheduled for transmission \r\n" [Int retcode].

(** ** [receive_message] *)

(** The loop
    [for (uint8_t i = 0; i < retcode; i++) printf("%02x ", rx_buffer[i])]
    from the state in which the counter is [i].  The counter is eight bits
    wide and wraps.  The source does not check the index: outside the array
    its behaviour is undefined, and the run is ended there with
    [OutOfBoundsRead] rather than given a behaviour the source does not
    have.  The loop is followed exactly as long as the index stays inside
    the array, which for [rx_buffer] is for every count up to 50. *)
Fixpoint rx_dump (fuel : nat) (i : Z) (retcode : Z) (rx_buffer : list Z)
  : M unit :=
  match fuel with
  | O => abort LoopFuelExhausted
  | S fuel' =>
      if i <? retcode then
        match nth_error rx_buffer (Z.to_nat i) with
        | Some b =>
            printf "%02x " [Int b] ;;
            rx_dump fuel' ((i + 1) mod 256) retcode rx_buffer
        | None => abort OutOfBoundsRead
        end
      else ret tt
  end.

(** Iterations after which the loop has returned or left the array: one
    per element of [rx_buffer] and the final test. *)
Definition rx_dump_fuel : nat := 51.

Definition receive_message : M unit :=
  let rx_buffer := repeat 0 50 in
  r <- lorawan_receive 15 rx_buffer 50
         (Z.lor MSG_CONFIRMED_FLAG MSG_UNCONFIRMED_FLAG) ;;
  let retcode := fst r in
  let rx_buffer := snd r in
  if retcode <? 0 then
    printf "receive() - Error code %d \r\n" [Int retcode]
  else
    printf "RX Data (%d bytes): " [Int retcode] ;;
    rx_dump rx_dump_fuel 0 retcode rx_buffer ;;
    printf "\r\n" [].

(** ** [lora_event_handler] *)

Definition lora_event_handler (event : lorawan_event_t) : M unit :=
  match event with
  | CONNECTED =>
      printf "Connection - Successful \r\n" [] ;;
      call_in TX_INTERVAL cb_send_message ;;
      ret tt
  | DISCONNECTED =>
      break_dispatch ;;
      printf "Disconnected Successfully \r\n" []
  | TX_DONE =>
      printf "Message Sent to Network Server \r\n" []
  | TX_TIMEOUT
  | TX_ERROR
  | TX_CRYPTO_ERROR
  | TX_SCHEDULING_ERROR =>
      printf "Transmission Error - EventCode = %d \r\n"
             [Int (lorawan_event_code event)]
  | RX_DONE =>
      printf "Received message from Network Server \r\n" [] ;;
      receive_message
  | RX_TIMEOUT
  | RX_ERROR =>
      printf "Error in reception - Code = %d \r\n"
             [Int (lorawan_event_code event)]
  | JOIN_FAILURE =>
      printf "OTAA Failed - Check Keys \r\n" []
  | UPLINK_REQUIRED =>
      printf "Uplink required by NS \r\n" [] ;;
      send_message
  | UNLISTED _ =>
      MBED_ASSERT (literal_as_condition "Unknown Event")
  end.

(** ** The event dispatcher *)

Definition run_callback (f : callback) : M unit :=
  match f with
  | cb_send_message => send_message
  end.

(** The entry that is due first, the earliest posted among equals, and the
    queue without it. *)
Fixpoint take_earliest (q : list timer) : option (timer * list timer) :=
  match q with
  | [] => None
  | t :: r =>
      match take_earliest r with
      | None => Some (t, [])
      | Some (t', r') =>
          if due t' <? due t then Some (t', t :: r') else Some (t, r)
      end
  end.

(** The clock never runs backwards. *)
Definition advance (t : Z) : M unit :=
  fun w =>
    Ok tt (mkWorld (Z.max (tick w) t) (posted w) (pending w)
                   (break_requested w) (console w)
                   (sent w) (received w) (readings w) (setup w)).

Definition set_pending (q : list timer) : M unit :=
  fun w =>
    Ok tt (mkWorld (tick w) (posted w) q (break_requested w) (console w)
                   (sent w) (received w) (readings w) (setup w)).

(** What wakes the run loop: the stack delivers an event to the
    application's callback at tick [at], or the timer that is due first
    expires. *)
Inductive stimulus : Type :=
| Net (at_tick : Z) (event : lorawan_event_t)
| Expire.

(** One callback, run to completion. *)
Definition deliver (s : stimulus) : M unit :=
  match s with
  | Net at_tick event =>
      advance at_tick ;;
      lora_event_handler event
  | Expire =>
      fun w =>
        match take_earliest (pending w) with
        | None => Ok tt w
        | Some (t, rest) =>
            (set_pending rest ;;
             advance (due t) ;;
             run_callback (target t)) w
        end
  end.

(** Modelled from the spec: [dispatch_forever()] of the event dispatcher is
    not in the repository.  It "blocks the calling thread, repeatedly
    waiting for the next timer expiry or externally posted event, invoking
    its callback inline", callbacks run to completion, and a stop request
    makes it return "once the currently running callback completes".  The
    stimuli are what the loop wakes up for, in order; when they end the
    loop is still waiting. *)
Fixpoint dispatch_forever (stimuli : list stimulus) (w : World)
  : Outcome unit :=
  if break_requested w then Ok tt w
  else
    match stimuli with
    | [] => Dispatching w
    | s :: rest => (deliver s ;; dispatch_forever rest) w
    end.

(** ** [main] *)

(** The value is the exit code: [-1] from the early returns, [0] when
    control reaches the end of [main]. *)
Definition main (stimuli : list stimulus) : M Z :=
  configure mbed_trace_init 0 ;;
  configure hum_temp_enable 0 ;;
  status <- configure lorawan_initialize initialize_returns ;;
  if negb (status =? LORAWAN_STATUS_OK) then
    printf "LoRa initialization failed! \r\n" [] ;;
    ret (-1)
  else
    printf "Mbed LoRaWANStack initialized \r\n" [] ;;
    configure lorawan_add_app_callbacks add_app_callbacks_returns ;;
    status <- configure (lorawan_set_confirmed_msg_retries 3)
                        set_confirmed_msg_retries_returns ;;
    if negb (status =? LORAWAN_STATUS_OK) then
      printf "set_confirmed_msg_retries failed! \r\n\r\n" [] ;;
      ret (-1)
    else
      status <- configure lorawan_disable_adaptive_datarate
                          disable_adaptive_datarate_returns ;;
      if negb (status =? LORAWAN_STATUS_OK) then
        printf "disable_adaptive_datarate failed! \r\n" [] ;;
        ret (-1)
      else
        printf "Adaptive data  rate (ADR) - disabled \r\n" [] ;;
        let connect_params :=
          mkConnect LORAWAN_DEV_EUI LORAWAN_APP_EUI LORAWAN_APP_KEY 10 in
        retcode <- configure (lorawan_connect connect_params)
                             connect_returns ;;
        if (retcode =? LORAWAN_STATUS_OK)
           || (retcode =? LORAWAN_STATUS_CONNECT_IN_PROGRESS)
        then
          printf "Connection - In Progress ...\r\n" [] ;;
          dispatch_forever stimuli ;;
          ret 0
        else
          printf "Connection error, code = %d \r\n" [Int retcode] ;;
          ret (-1).

(** ** Vocabulary of the properties *)

(** The delay [send_message] asks [call_in] for, by the code [send]
    returned. *)
Definition resend_delay (retcode : Z) : Z :=
  if (retcode <? 0) && (retcode =? LORAWAN_STATUS_WOULD_BLOCK)
  then 3000
  else TX_INTERVAL.

(** Number of [call_in] calls one stimulus adds on top of those it
    consumes: the handler posts for [CONNECTED] and, through
    [send_message], for [UPLINK_REQUIRED]. *)
Definition arms (s : stimulus) : nat :=
  match s with
  | Net _ CONNECTED => 1
  | Net _ UPLINK_REQUIRED => 1
  | _ => 0
  end.

Definition arming (stimuli : list stimulus) : nat :=
  list_sum (map arms stimuli).

(** The line [send_message] prints about the code [send] returned. *)
Definition send_report (retcode : Z) : printf_call :=
  if retcode <? 0 then
    if retcode =? LORAWAN_STATUS_WOULD_BLOCK
    then ("send - Duty cycle violation\r\n", [])
    else ("send() - Error code %d \r\n", [Int retcode])
  else ("%d bytes scheduled for transmission \r\n", [Int retcode]).

(** The line a build without [TARGET_SIMULATOR] prints about the reading. *)
Definition sensor_report (w : World) : list printf_call :=
  if TARGET_SIMULATOR then []
  else [("Temperature is %f\n", [Float (sensor_returns (readings w))])].

(** The world one execution of [send_message] leaves behind. *)
Definition after_send (w : World) : World :=
  let retcode := send_returns (length (sent w)) in
  mkWorld (tick w) (S (posted w))
          (pending w ++
             [mkTimer (posted w) (tick w + resend_delay retcode)
                      cb_send_message])
          (break_requested w)
          (console w ++ sensor_report w ++ [send_report retcode])
          (sent w ++
             [mkTx 15
                   (CayenneLPP_addTemperature 50 1
                      (sensor_returns (readings w)))
                   MSG_UNCONFIRMED_FLAG])
          (received w) (S (readings w)) (setup w).

(** [w] after the [printf] calls [lines]. *)
Definition logged (lines : list printf_call) (w : World) : World :=
  mkWorld (tick w) (posted w) (pending w) (break_requested w)
          (console w ++ lines)
          (sent w) (received w) (readings w) (setup w).

(** The line the dump loop prints for one byte. *)
Definition hex_line (b : Z) : printf_call := ("%02x ", [Int b]).

(** The world in which [main] calls [dispatch_forever]. *)
Definition started (w : World) : World :=
  mkWorld (tick w) (posted w) (pending w) (break_requested w)
    (console w ++
       [("Mbed LoRaWANStack initialized \r\n", []);
        ("Adaptive data  rate (ADR) - disabled \r\n", []);
        ("Connection - In Progress ...\r\n", [])])
    (sent w) (received w) (readings w)
    (setup w ++
       [mbed_trace_init; hum_temp_enable; lorawan_initialize;
        lorawan_add_app_callbacks; lorawan_set_confirmed_msg_retries 3;
        lorawan_disable_adaptive_datarate;
        lorawan_connect
          (mkConnect LORAWAN_DEV_EUI LORAWAN_APP_EUI LORAWAN_APP_KEY 10)]).

(** [w] after one [lorawan.receive] call of [receive_message]. *)
Definition asked (w : World) : World :=
  mkWorld (tick w) (posted w) (pending w) (break_requested w) (console w)
          (sent w)
          (received w ++
             [mkRx 15 50 (Z.lor MSG_CONFIRMED_FLAG MSG_UNCONFIRMED_FLAG)])
          (readings w) (setup w).

(** The arguments of the send that uses the [k]-th sensor reading. *)
Definition uplink_of (k : nat) : tx_call :=
  mkTx 15 (CayenneLPP_addTemperature 50 1 (sensor_returns k))
       MSG_UNCONFIRMED_FLAG.

(** Events whose branch of the handler is a single [printf]. *)
Definition only_logs (event : lorawan_event_t) : bool :=
  match event with
  | TX_DONE
  | TX_TIMEOUT
  | TX_ERROR
  | TX_CRYPTO_ERROR
  | TX_SCHEDULING_ERROR
  | RX_TIMEOUT
  | RX_ERROR
  | JOIN_FAILURE => true
  | _ => false
  end.

(** The delays of [n] consecutive sends, the first of which is the
    [first]-th send of the run. *)
Fixpoint total_delay (first n : nat) : Z :=
  match n with
  | O => 0
  | S n' => resend_delay (send_returns first) + total_delay (S first) n'
  end.

(** Whether delivering [s] in [w] runs [send_message]: the handler calls
    it for [UPLINK_REQUIRED], the queue when a timer expires. *)
Definition sends (s : stimulus) (w : World) : bool :=
  match s with
  | Net _ UPLINK_REQUIRED => true
  | Net _ _ => false
  | Expire => match pending w with [] => false | _ :: _ => true end
  end.

(** The arguments of every [lorawan.receive] call of [receive_message]. *)
Definition downlink_request : rx_call :=
  mkRx 15 50 (Z.lor MSG_CONFIRMED_FLAG MSG_UNCONFIRMED_FLAG).

End Application.

Arguments Ok {P A} a w.
Arguments Crash {P A} c w.
Arguments Dispatching {P A} w.

(** ** A concrete board *)

(** A board with the values the Mbed OS 5 headers give the names of
    [Platform] (a build without [TARGET_SIMULATOR]); temperatures are in
    tenths of a degree, encoded as channel, type 103 and two bytes. *)
Definition nucleo : Platform := {|
  c_float := Z;
  TARGET_SIMULATOR := false;
  LORAWAN_STATUS_OK := 0;
  LORAWAN_STATUS_WOULD_BLOCK := -1001;
  LORAWAN_STATUS_CONNECT_IN_PROGRESS := -1016;
  MSG_UNCONFIRMED_FLAG := 1;
  MSG_CONFIRMED_FLAG := 2;
  lorawan_event_code := fun event =>
    match event with
    | CONNECTED => 0
    | DISCONNECTED => 1
    | TX_DONE => 2
    | TX_TIMEOUT => 3
    | TX_ERROR => 4
    | TX_CRYPTO_ERROR => 5
    | TX_SCHEDULING_ERROR => 6
    | RX_DONE => 7
    | RX_TIMEOUT => 8
    | RX_ERROR => 9
    | JOIN_FAILURE => 10
    | UPLINK_REQUIRED => 11
    | UNLISTED raw => raw
    end;
  CayenneLPP_addTemperature := fun _ channel t =>
    [channel; 103; (t / 256) mod 256; t mod 256]
|}.

(** A run in which the join is in progress after [connect], the sensor
    reads 21.5 degrees, the sends return 12 bytes, then a duty-cycle
    restriction, then an invalid-parameter error, then 12 bytes again, and
    the receives return the two bytes [01 02], then "would block". *)
Definition field_run : @Environment nucleo :=
  @Build_Environment nucleo
    0 0 0 0 (-1016)
    (fun _ => 215)
    (fun k => nth k [12; -1001; -1003] 12)
    (fun k => nth k [(2, [1; 2])] (-1001, [])).

(** The same run, except that [add_app_callbacks] reports an invalid
    parameter. *)
Definition unregistered_run : @Environment nucleo :=
  @Build_Environment nucleo
    0 (-1003) 0 0 (-1016)
    (fun _ => 215)
    (fun k => nth k [12; -1001; -1003] 12)
    (fun k => nth k [(2, [1; 2])] (-1001, [])).

(** A run in which [connect] is refused with an invalid-parameter
    status. *)
Definition refused_run : @Environment nucleo :=
  @Build_Environment nucleo
    0 0 0 0 (-1003)
    (fun _ => 215)
    (fun k => nth k [12; -1001; -1003] 12)
    (fun k => nth k [(2, [1; 2])] (-1001, [])).

(** A build with [TARGET_SIMULATOR]: the same constants, the reading
    itself as the one payload byte behind channel and type. *)
Definition simulator : Platform := {|
  c_float := Z;
  TARGET_SIMULATOR := true;
  LORAWAN_STATUS_OK := 0;
  LORAWAN_STATUS_WOULD_BLOCK := -1001;
  LORAWAN_STATUS_CONNECT_IN_PROGRESS := -1016;
  MSG_UNCONFIRMED_FLAG := 1;
  MSG_CONFIRMED_FLAG := 2;
  lorawan_event_code := fun _ => 0;
  CayenneLPP_addTemperature := fun _ channel t => [channel; 103; t]
|}.

(** The answers of [field_run] on the simulator. *)
Definition simulated_run : @Environment simulator :=
  @Build_Environment simulator
    0 0 0 0 (-1016)
    (fun _ => 215)
    (fun k => nth k [12; -1001; -1003] 12)
    (fun k => nth k [(2, [1; 2])] (-1001, [])).

(** A run on the simulator in which [receive] reports 60 bytes, and then
    3 bytes of which it delivers one. *)
Definition oversized_run : @Environment simulator :=
  @Build_Environment simulator
    0 0 0 0 (-1016)
    (fun _ => 215)
    (fun k => nth k [12; -1001; -1003] 12)
    (fun k => nth k [(60, [7; 8])] (3, [9])).

(** The world of [field_run] once [CONNECTED] has been handled at tick
    100: one send is pending. *)
Definition joined : @World nucleo :=
  world_of (deliver (E := field_run) (Net 100 CONNECTED) boot).

(** * Properties *)

Section Properties.

Context {P : Platform} {E : Environment}.

Lemma bind_ok {A B : Type} (m : M A) (k : A -> M B)
    (w w1 : World) (a : A) :
  m w = Ok a w1 -> bind m k w = k a w1.
Proof. intros Hm. unfold bind. now rewrite Hm. Qed.

(** Runs the first call of a sequence and tidies the world it leaves. *)
Ltac run_call :=
  erewrite bind_ok by reflexivity;
  cbn [tick posted pending break_requested console sent received readings
       setup].

(** ** [send_message] *)

Lemma send_message_after (w : World) :
  send_message w = Ok tt (after_send w).
Proof.
  unfold send_message, after_send, resend_delay, send_report, sensor_report,
    bind, ret, read_sensor, lorawan_send, printf, call_in.
  destruct TARGET_SIMULATOR; cbn;
    destruct (send_returns (length (sent w)) <? 0);
    destruct (send_returns (length (sent w)) =? LORAWAN_STATUS_WOULD_BLOCK);
    cbn; rewrite <- ?app_assoc; reflexivity.
Qed.

Lemma resend_delay_would_block (retcode : Z) :
  retcode < 0 -> retcode = LORAWAN_STATUS_WOULD_BLOCK ->
  resend_delay retcode = 3000.
Proof.
  intros Hneg Hwb. unfold resend_delay.
  apply Z.ltb_lt in Hneg. apply Z.eqb_eq in Hwb.
  now rewrite Hneg, Hwb.
Qed.

Lemma resend_delay_otherwise (retcode : Z) :
  0 <= retcode \/ retcode <> LORAWAN_STATUS_WOULD_BLOCK ->
  resend_delay retcode = TX_INTERVAL.
Proof.
  intros [Hpos | Hother]; unfold resend_delay.
  - apply Z.ltb_ge in Hpos. now rewrite Hpos.
  - apply Z.eqb_neq in Hother. rewrite Hother. now rewrite andb_false_r.
Qed.

Lemma resend_delay_cases (retcode : Z) :
  resend_delay retcode = 3000 \/ resend_delay retcode = 10000.
Proof.
  unfold resend_delay, TX_INTERVAL.
  destruct ((retcode <? 0) && (retcode =? LORAWAN_STATUS_WOULD_BLOCK));
    auto.
Qed.

(** C2: a failed send (negative code) is rescheduled exactly once: after
    3000 ms, which is less than the uplink interval, when the code is
    [LORAWAN_STATUS_WOULD_BLOCK]; after the 10000 ms uplink interval, with
    the error line carrying the code, when it is any other negative code. *)
Theorem failed_send_is_retried_once (w : World) (retcode : Z) :
  send_returns (length (sent w)) = retcode ->
  retcode < 0 ->
  exists w',
    send_message w = Ok tt w' /\
    (retcode = LORAWAN_STATUS_WOULD_BLOCK ->
     pending w' =
       pending w ++ [mkTimer (posted w) (tick w + 3000) cb_send_message] /\
     3000 < TX_INTERVAL) /\
    (retcode <> LORAWAN_STATUS_WOULD_BLOCK ->
     pending w' =
       pending w ++ [mkTimer (posted w) (tick w + 10000) cb_send_message] /\
     TX_INTERVAL = 10000 /\
     console w' =
       console w ++ sensor_report w ++
         [("send() - Error code %d \r\n", [Int retcode])]).
Proof.
  intros Hret Hneg. exists (after_send w).
  split; [apply send_message_after|].
  unfold after_send; cbn [pending console]. rewrite Hret. split.
  - intros Hwb. rewrite resend_delay_would_block by assumption.
    split; [reflexivity | unfold TX_INTERVAL; lia].
  - intros Hother. rewrite resend_delay_otherwise by (right; assumption).
    split; [reflexivity | split; [reflexivity|]].
    unfold send_report.
    apply Z.ltb_lt in Hneg. apply Z.eqb_neq in Hother.
    now rewrite Hneg, Hother.
Qed.

(** C3: in every world the handler of [CONNECTED] schedules the first
    send 10000 ms ahead (and sends nothing itself); and a send that returns
    a non-negative count schedules the next one 10000 ms ahead and prints
    the "bytes scheduled" line with that count. *)
Theorem connected_and_successful_send_schedule :
  (forall w : World,
     exists w',
       lora_event_handler CONNECTED w = Ok tt w' /\
       pending w' =
         pending w ++
           [mkTimer (posted w) (tick w + TX_INTERVAL) cb_send_message] /\
       sent w' = sent w) /\
  (forall (w : World) (retcode : Z),
     send_returns (length (sent w)) = retcode ->
     0 <= retcode ->
     exists w',
       send_message w = Ok tt w' /\
       pending w' =
         pending w ++
           [mkTimer (posted w) (tick w + TX_INTERVAL) cb_send_message] /\
       console w' =
         console w ++ sensor_report w ++
           [("%d bytes scheduled for transmission \r\n", [Int retcode])]) /\
  TX_INTERVAL = 10000.
Proof.
  split; [|split; [|reflexivity]].
  - intros w. eexists. split; [reflexivity|]. split; reflexivity.
  - intros w retcode Hret Hpos.
    exists (after_send w). split; [apply send_message_after|].
    unfold after_send; cbn [pending console]. rewrite Hret.
    rewrite resend_delay_otherwise by (left; assumption).
    split; [reflexivity|].
    unfold send_report. apply Z.ltb_ge in Hpos. now rewrite Hpos.
Qed.

(** ** [receive_message] *)

Lemma logged_nil (w : World) : logged [] w = w.
Proof. destruct w. unfold logged. cbn. now rewrite app_nil_r. Qed.

(** The dump loop over the bytes that are left: with at least one unit of
    fuel more than bytes, it prints them in order and returns. *)
Lemma rx_dump_prints (todo : list Z) :
  forall (fuel : nat) (done rest : list Z) (w : World),
    (length todo < fuel)%nat ->
    (length (done ++ todo) <= 255)%nat ->
    rx_dump fuel (Z.of_nat (length done))
            (Z.of_nat (length (done ++ todo)))
            (done ++ todo ++ rest) w
    = Ok tt (logged (map hex_line todo) w).
Proof.
  induction todo as [|b todo IH]; intros fuel done rest w Hfuel Hlen.
  - destruct fuel as [|fuel]; [cbn in Hfuel; lia|].
    cbn [rx_dump]. rewrite app_nil_r, Z.ltb_irrefl.
    cbn [map]. now rewrite logged_nil.
  - destruct fuel as [|fuel]; [cbn in Hfuel; lia|].
    cbn [rx_dump].
    rewrite length_app in *. cbn [length] in *.
    replace (Z.of_nat (length done) <? Z.of_nat (length done + S (length todo)))
      with true by (symmetry; apply Z.ltb_lt; lia).
    rewrite Nat2Z.id, nth_error_app2 by lia.
    rewrite Nat.sub_diag. cbn [app nth_error].
    unfold bind at 1. cbn [printf].
    replace ((Z.of_nat (length done) + 1) mod 256)
      with (Z.of_nat (length (done ++ [b])))
      by (rewrite length_app; cbn [length];
          rewrite Z.mod_small by lia; lia).
    replace (Z.of_nat (length done + S (length todo)))
      with (Z.of_nat (length ((done ++ [b]) ++ todo)))
      by (rewrite !length_app; cbn [length]; lia).
    replace (done ++ b :: todo ++ rest)
      with ((done ++ [b]) ++ todo ++ rest)
      by (now rewrite <- app_assoc).
    rewrite IH.
    + unfold logged, hex_line. cbn. now rewrite <- app_assoc.
    + lia.
    + rewrite !length_app. cbn [length]. lia.
Qed.

(** The loop as [receive_message] starts it, on a buffer that begins with
    the [data] counted by the return code. *)
Lemma rx_dump_from_start (data rest : list Z) (w : World) :
  (length data <= 50)%nat ->
  rx_dump rx_dump_fuel 0 (Z.of_nat (length data)) (data ++ rest) w
  = Ok tt (logged (map hex_line data) w).
Proof.
  intros Hlen.
  apply (rx_dump_prints data rx_dump_fuel [] rest w).
  - unfold rx_dump_fuel. lia.
  - cbn [app]. lia.
Qed.

(** The fuel [receive_message] gives the loop is never used up: on a
    buffer of at most 255 bytes the loop returns or reads out of bounds
    within one iteration per byte left. *)
Lemma rx_dump_has_fuel (fuel : nat) :
  forall (i retcode : Z) (rx_buffer : list Z) (w : World),
    0 <= i <= Z.of_nat (length rx_buffer) ->
    (length rx_buffer <= 255)%nat ->
    Z.of_nat (length rx_buffer) - i < Z.of_nat fuel ->
    forall w', rx_dump fuel i retcode rx_buffer w <> Crash LoopFuelExhausted w'.
Proof.
  induction fuel as [|fuel IH]; intros i retcode rx_buffer w Hi Hlen Hfuel w'.
  - cbn in Hfuel. lia.
  - cbn [rx_dump]. destruct (i <? retcode); [|discriminate].
    destruct (nth_error rx_buffer (Z.to_nat i)) as [b|] eqn:Hnth;
      [|discriminate].
    assert (Hin : (Z.to_nat i < length rx_buffer)%nat)
      by (apply nth_error_Some; congruence).
    unfold bind at 1. cbn [printf].
    rewrite Z.mod_small by lia.
    apply IH; cbn [length]; lia.
Qed.

(** [receive_message] when the stack returns a negative code. *)
Lemma receive_message_reports_failure
    (w : World) (retcode : Z) (data : list Z) :
  receive_returns (length (received w)) = (retcode, data) ->
  retcode < 0 ->
  exists w',
    receive_message w = Ok tt w' /\
    console w' =
      console w ++ [("receive() - Error code %d \r\n", [Int retcode])] /\
    received w' =
      received w ++
        [mkRx 15 50 (Z.lor MSG_CONFIRMED_FLAG MSG_UNCONFIRMED_FLAG)] /\
    pending w' = pending w /\
    sent w' = sent w.
Proof.
  intros Hret Hneg.
  unfold receive_message.
  erewrite bind_ok
    by (unfold lorawan_receive; rewrite Hret; cbn [fst snd]; reflexivity).
  cbn [fst snd].
  apply Z.ltb_lt in Hneg. rewrite Hneg.
  eexists. split; [reflexivity|]. cbn. repeat split; reflexivity.
Qed.

(** C10: when [receive] returns a negative code, [receive_message] prints
    the error line and returns: no callback is posted, nothing is sent,
    and clock, queue, stop request, sensor and configuration are as
    before. *)
Theorem failed_receive_only_logs (w : World) (retcode : Z) (data : list Z) :
  receive_returns (length (received w)) = (retcode, data) ->
  retcode < 0 ->
  exists w',
    receive_message w = Ok tt w' /\
    console w' =
      console w ++ [("receive() - Error code %d \r\n", [Int retcode])] /\
    received w' =
      received w ++
        [mkRx 15 50 (Z.lor MSG_CONFIRMED_FLAG MSG_UNCONFIRMED_FLAG)] /\
    pending w' = pending w /\
    posted w' = posted w /\
    sent w' = sent w /\
    tick w' = tick w /\
    break_requested w' = break_requested w /\
    readings w' = readings w /\
    setup w' = setup w.
Proof.
  intros Hret Hneg.
  unfold receive_message, bind, lorawan_receive.
  rewrite Hret. cbn [fst snd].
  apply Z.ltb_lt in Hneg. rewrite Hneg.
  eexists. split; [reflexivity|]. cbn. repeat split; reflexivity.
Qed.

(** Every call of [receive_message] comes back without having used up
    the loop's fuel, whatever the stack returns. *)
Lemma receive_message_has_fuel (w w' : World) :
  receive_message w <> Crash LoopFuelExhausted w'.
Proof.
  unfold receive_message, bind at 1, lorawan_receive. cbn [fst snd].
  destruct (fst (receive_returns (length (received w))) <? 0);
    [discriminate|].
  unfold bind at 1. cbn [printf]. unfold bind at 1.
  match goal with
  | |- context [rx_dump ?f ?i ?r ?b ?x] =>
      pose proof (rx_dump_has_fuel f i r b x) as Hfuel;
      destruct (rx_dump f i r b x) as [[] x'|c x'|x'] eqn:Hrun
  end; try discriminate.
  intros Heq. injection Heq as -> ->.
  apply (Hfuel ltac:(lia)) with (w' := w'); [| |reflexivity].
  - unfold overwrite. rewrite length_app, length_skipn, repeat_length.
    pose proof (firstn_le_length (Z.to_nat 50)
                  (snd (receive_returns (length (received w))))).
    lia.
  - unfold overwrite, rx_dump_fuel.
    rewrite length_app, length_skipn, repeat_length.
    pose proof (firstn_le_length (Z.to_nat 50)
                  (snd (receive_returns (length (received w))))).
    pose proof (length_firstn (Z.to_nat 50)
                  (snd (receive_returns (length (received w))))).
    lia.
Qed.

(** [receive_message] when the stack delivers [data] and returns their
    number. *)
Lemma receive_message_delivers (w : World) (data : list Z) :
  receive_returns (length (received w)) = (Z.of_nat (length data), data) ->
  (length data <= 50)%nat ->
  receive_message w =
    Ok tt
       (mkWorld (tick w) (posted w) (pending w) (break_requested w)
          (console w ++
             ("RX Data (%d bytes): ", [Int (Z.of_nat (length data))])
             :: map hex_line data ++ [("\r\n", [])])
          (sent w)
          (received w ++
             [mkRx 15 50 (Z.lor MSG_CONFIRMED_FLAG MSG_UNCONFIRMED_FLAG)])
          (readings w) (setup w)).
Proof.
  intros Hret Hlen.
  unfold receive_message.
  erewrite bind_ok
    by (unfold lorawan_receive; rewrite Hret; cbn [fst snd]; reflexivity).
  cbn [fst snd].
  replace (Z.of_nat (length data) <? 0) with false
    by (symmetry; apply Z.ltb_ge; lia).
  erewrite bind_ok by reflexivity.
  rewrite firstn_all2 by lia. unfold overwrite.
  erewrite bind_ok by (apply rx_dump_from_start; exact Hlen).
  unfold printf, logged. cbn [tick posted pending break_requested console
                               sent received readings setup].
  rewrite <- !app_assoc. reflexivity.
Qed.

(** C8: on [RX_DONE] the handler asks [receive] for at most 50 bytes, once.
    When the stack returns the count [retcode >= 0] of the bytes [data] it
    delivered, the handler prints the count and then exactly those bytes,
    in order; when it returns a negative code, the handler prints the error
    line with the code.  Either way nothing is posted or sent. *)
Theorem rx_done_reports_payload_or_error
    (w : World) (retcode : Z) (data : list Z) :
  receive_returns (length (received w)) = (retcode, data) ->
  retcode < 0 \/ (retcode = Z.of_nat (length data) /\ retcode <= 50) ->
  exists w',
    lora_event_handler RX_DONE w = Ok tt w' /\
    received w' =
      received w ++
        [mkRx 15 50 (Z.lor MSG_CONFIRMED_FLAG MSG_UNCONFIRMED_FLAG)] /\
    pending w' = pending w /\
    sent w' = sent w /\
    (0 <= retcode ->
     console w' =
       console w ++
         [("Received message from Network Server \r\n", []);
          ("RX Data (%d bytes): ", [Int retcode])] ++
         map (fun b => ("%02x ", [Int b])) data ++
         [("\r\n", [])]) /\
    (retcode < 0 ->
     console w' =
       console w ++
         [("Received message from Network Server \r\n", []);
          ("receive() - Error code %d \r\n", [Int retcode])]).
Proof.
  intros Hret Hport.
  unfold lora_event_handler.
  erewrite bind_ok by reflexivity.
  destruct (Z.ltb_spec retcode 0) as [Hneg | Hpos].
  - destruct (receive_message_reports_failure
                (logged [("Received message from Network Server \r\n", [])] w)
                retcode data Hret Hneg)
      as (w' & Hrun & Hconsole & Hreceived & Hpending & Hsent).
    exists w'. split; [exact Hrun|].
    rewrite Hreceived, Hpending, Hsent, Hconsole. cbn.
    repeat split; try reflexivity; try lia.
    intros _. now rewrite <- app_assoc.
  - destruct Hport as [Hport | [Hcount Hsize]]; [lia|]. subst retcode.
    eexists. split.
    + apply receive_message_delivers; [exact Hret | lia].
    + cbn. repeat split; try reflexivity; try lia.
      intros _. unfold hex_line. now rewrite <- app_assoc.
Qed.

(** ** [lora_event_handler] *)

(** C5 fails on the code: for an event that is none of the twelve
    enumerators the handler reaches [MBED_ASSERT("Unknown Event")], whose
    condition is a string literal and so is true: the assertion passes and
    the handler returns, leaving the world as it was. *)
Theorem unknown_event_passes_the_assertion (raw : Z) (w : World) :
  lora_event_handler (UNLISTED raw) w = Ok tt w /\
  (forall w', lora_event_handler (UNLISTED raw) w <> Crash AssertionFailed w').
Proof.
  split; [reflexivity|]. intros w'. discriminate.
Qed.

(** ** What callbacks do to the queue *)

Lemma rx_dump_keeps_pending (fuel : nat) :
  forall (i retcode : Z) (rx_buffer : list Z) (w : World),
    pending (world_of (rx_dump fuel i retcode rx_buffer w)) = pending w.
Proof.
  induction fuel as [|fuel IH]; intros i retcode rx_buffer w;
    cbn [rx_dump]; [reflexivity|].
  destruct (i <? retcode); [|reflexivity].
  destruct (nth_error rx_buffer (Z.to_nat i)); [|reflexivity].
  unfold bind at 1. cbn [printf]. now rewrite IH.
Qed.

Lemma receive_message_keeps_pending (w : World) :
  pending (world_of (receive_message w)) = pending w.
Proof.
  unfold receive_message.
  erewrite bind_ok by reflexivity. cbn [fst snd].
  destruct (_ <? 0); [reflexivity|].
  erewrite bind_ok by reflexivity.
  unfold bind at 1.
  match goal with
  | |- context [rx_dump ?f ?i ?r ?b ?x] =>
      pose proof (rx_dump_keeps_pending f i r b x) as Hkeep;
      destruct (rx_dump f i r b x) as [[] x'|c x'|x']
  end; cbn [world_of printf pending] in *; exact Hkeep.
Qed.

(** The handler keeps every pending timer and appends one for [CONNECTED]
    and for [UPLINK_REQUIRED], none for any other event. *)
Lemma handler_appends (event : lorawan_event_t) (at_tick : Z) (w : World) :
  exists new,
    pending (world_of (lora_event_handler event w)) = pending w ++ new /\
    length new = arms (Net at_tick event).
Proof.
  destruct event;
    try (exists []; split; [now rewrite app_nil_r | reflexivity]).
  - eexists [_]. split; reflexivity.
  - exists []. rewrite app_nil_r. split; [|reflexivity].
    unfold lora_event_handler. erewrite bind_ok by reflexivity.
    now rewrite receive_message_keeps_pending.
  - eexists [_]. split; [|reflexivity].
    unfold lora_event_handler. erewrite bind_ok by reflexivity.
    rewrite send_message_after. reflexivity.
Qed.

Lemma take_earliest_length (q : list timer) :
  forall t rest,
    take_earliest q = Some (t, rest) -> length q = S (length rest).
Proof.
  induction q as [|t0 q IH]; intros t rest Htake; [discriminate|].
  cbn [take_earliest] in Htake.
  destruct (take_earliest q) as [[t1 r1]|] eqn:Hq.
  - destruct (due t1 <? due t0); injection Htake as <- <-; cbn [length].
    + now rewrite (IH _ _ eq_refl).
    + reflexivity.
  - injection Htake as <- <-. destruct q; [reflexivity|].
    cbn [take_earliest] in Hq.
    destruct (take_earliest q) as [[t2 r2]|];
      [destruct (due t2 <? due t)|]; discriminate.
Qed.

Lemma take_earliest_nonempty (q : list timer) :
  q <> [] -> exists t rest, take_earliest q = Some (t, rest).
Proof.
  destruct q as [|t0 q]; [congruence|]. intros _.
  cbn [take_earliest].
  destruct (take_earliest q) as [[t1 r1]|];
    [destruct (due t1 <? due t0)|]; eauto.
Qed.

(** The world after the timer [t] expired, [rest] being the others. *)
Lemma deliver_expire (w : World) (t : timer) (rest : list timer) :
  take_earliest (pending w) = Some (t, rest) ->
  deliver Expire w =
    Ok tt
       (after_send
          (mkWorld (Z.max (tick w) (due t)) (posted w) rest
                   (break_requested w) (console w)
                   (sent w) (received w) (readings w) (setup w))).
Proof.
  intros Htake. cbn [deliver]. rewrite Htake.
  erewrite bind_ok by reflexivity.
  erewrite bind_ok by reflexivity.
  destruct t as [id d []]. cbn [target run_callback].
  now rewrite send_message_after.
Qed.

(** A timer that expires is replaced by exactly one new timer. *)
Lemma expire_keeps_count (w : World) :
  length (pending (world_of (deliver Expire w))) = length (pending w).
Proof.
  destruct (take_earliest (pending w)) as [[t rest]|] eqn:Htake.
  - rewrite (deliver_expire w t rest Htake).
    cbn [world_of after_send pending].
    rewrite length_app, (take_earliest_length _ _ _ Htake).
    cbn [length]. lia.
  - cbn [deliver]. now rewrite Htake.
Qed.

Lemma deliver_bound (s : stimulus) (w : World) :
  (length (pending (world_of (deliver s w)))
   <= length (pending w) + arms s)%nat.
Proof.
  destruct s as [at_tick event|].
  - cbn [deliver]. erewrite bind_ok by reflexivity.
    destruct (handler_appends event at_tick
                (mkWorld (Z.max (tick w) at_tick) (posted w) (pending w)
                   (break_requested w) (console w)
                   (sent w) (received w) (readings w) (setup w)))
      as (new & Hpending & Hnew).
    rewrite Hpending, length_app, Hnew. cbn [pending]. lia.
  - rewrite expire_keeps_count. cbn [arms]. lia.
Qed.

Lemma dispatch_bound (stimuli : list stimulus) :
  forall w,
    (length (pending (world_of (dispatch_forever stimuli w)))
     <= length (pending w) + arming stimuli)%nat.
Proof.
  induction stimuli as [|s stimuli IH]; intros w; cbn [dispatch_forever];
    destruct (break_requested w); cbn [world_of]; try lia.
  pose proof (deliver_bound s w) as Hs.
  unfold bind. unfold arming, list_sum in *. cbn [map fold_right].
  destruct (deliver s w) as [[] w1|c w1|w1]; cbn [world_of] in *; try lia.
  specialize (IH w1). lia.
Qed.

(** C1, as the code has it: no schedule cancels or replaces a pending
    send.  Handling an event keeps every pending timer and appends one
    for [CONNECTED] and for [UPLINK_REQUIRED], none otherwise; a timer that
    expires is replaced by exactly one; so at every point of a run the
    pending sends are at most those pending at its start plus the
    [CONNECTED] and [UPLINK_REQUIRED] events among its stimuli. *)
Theorem pending_sends_grow_with_arming_events :
  (forall (event : lorawan_event_t) (at_tick : Z) (w : World),
      exists new,
        pending (world_of (lora_event_handler event w)) = pending w ++ new /\
        length new = arms (Net at_tick event)) /\
  (forall w : World,
      length (pending (world_of (deliver Expire w))) = length (pending w)) /\
  (forall (stimuli : list stimulus) (w : World),
      (length (pending (world_of (dispatch_forever stimuli w)))
       <= length (pending w) + arming stimuli)%nat).
Proof.
  split; [|split].
  - intros event at_tick w. apply handler_appends.
  - apply expire_keeps_count.
  - intros stimuli w. apply dispatch_bound.
Qed.

(** ** The run loop *)

Lemma dispatch_forever_stopped (stimuli : list stimulus) (w : World) :
  break_requested w = true -> dispatch_forever stimuli w = Ok tt w.
Proof.
  intros Hstop. destruct stimuli; cbn [dispatch_forever]; now rewrite Hstop.
Qed.

Lemma dispatch_forever_step (s : stimulus) (rest : list stimulus)
    (w w1 : World) :
  break_requested w = false ->
  deliver s w = Ok tt w1 ->
  dispatch_forever (s :: rest) w = dispatch_forever rest w1.
Proof.
  intros Hrun Hs. cbn [dispatch_forever]. rewrite Hrun.
  now rewrite (bind_ok _ _ _ _ _ Hs).
Qed.

(** C6: when [DISCONNECTED] is delivered to a running loop, the handler
    runs to its end (its last line is printed) and [dispatch_forever]
    returns, whatever stimuli would follow: no timer fires and nothing is
    sent, received or read after the stop request, the pending timers stay
    in the queue, dispatching again from that world returns at once, and
    the rest of [main] returns 0. *)
Theorem disconnected_stops_the_run_loop
    (at_tick : Z) (rest : list stimulus) (w : World) :
  break_requested w = false ->
  exists w',
    dispatch_forever (Net at_tick DISCONNECTED :: rest) w = Ok tt w' /\
    console w' = console w ++ [("Disconnected Successfully \r\n", [])] /\
    pending w' = pending w /\
    posted w' = posted w /\
    sent w' = sent w /\
    received w' = received w /\
    readings w' = readings w /\
    break_requested w' = true /\
    (forall later, dispatch_forever later w' = Ok tt w') /\
    bind (dispatch_forever (Net at_tick DISCONNECTED :: rest))
         (fun _ => ret 0) w = Ok 0 w'.
Proof.
  intros Hrun.
  assert (Hloop :
            dispatch_forever (Net at_tick DISCONNECTED :: rest) w
            = Ok tt
                (mkWorld (Z.max (tick w) at_tick) (posted w) (pending w) true
                   (console w ++ [("Disconnected Successfully \r\n", [])])
                   (sent w) (received w) (readings w) (setup w))).
  { erewrite dispatch_forever_step; [|exact Hrun|reflexivity].
    apply dispatch_forever_stopped. reflexivity. }
  eexists. split; [exact Hloop|].
  cbn [console pending posted sent received readings break_requested].
  repeat split; try reflexivity.
  - intros later. apply dispatch_forever_stopped. reflexivity.
  - now rewrite (bind_ok _ _ _ _ _ Hloop).
Qed.

Lemma deliver_uplink_required (at_tick : Z) (w : World) :
  deliver (Net at_tick UPLINK_REQUIRED) w =
    Ok tt
       (after_send
          (mkWorld (Z.max (tick w) at_tick) (posted w) (pending w)
                   (break_requested w)
                   (console w ++ [("Uplink required by NS \r\n", [])])
                   (sent w) (received w) (readings w) (setup w))).
Proof.
  cbn [deliver]. erewrite bind_ok by reflexivity.
  unfold lora_event_handler. erewrite bind_ok by reflexivity.
  now rewrite send_message_after.
Qed.

(** C7: [n] [UPLINK_REQUIRED] events delivered one after the other at the
    same tick make exactly [n] calls of [send], each on a fresh reading,
    and post [n] timers; the delay of the i-th depends on the code the
    i-th send returned and on nothing else. *)
Theorem uplink_required_sends_every_time (n : nat) :
  forall (at_tick : Z) (w : World),
    break_requested w = false ->
    exists w',
      dispatch_forever (repeat (Net at_tick UPLINK_REQUIRED) n) w
      = Dispatching w' /\
      sent w' =
        sent w ++
          map (fun i =>
                 mkTx 15
                      (CayenneLPP_addTemperature 50 1
                         (sensor_returns (readings w + i)))
                      MSG_UNCONFIRMED_FLAG)
              (seq 0 n) /\
      pending w' =
        pending w ++
          map (fun i =>
                 mkTimer (posted w + i)
                         (Z.max (tick w) at_tick
                          + resend_delay
                              (send_returns (length (sent w) + i)))
                         cb_send_message)
              (seq 0 n).
Proof.
  induction n as [|n IH]; intros at_tick w Hrun.
  - exists w. cbn [repeat dispatch_forever seq map]. rewrite Hrun.
    now rewrite !app_nil_r.
  - cbn [repeat].
    erewrite dispatch_forever_step;
      [|exact Hrun|apply deliver_uplink_required].
    match goal with
    | |- context [dispatch_forever _ ?x] =>
        destruct (IH at_tick x Hrun) as (w' & Hloop & Hsent & Hpending)
    end.
    exists w'. split; [exact Hloop|].
    rewrite Hsent, Hpending.
    cbn [after_send sent pending posted tick readings].
    rewrite <- !app_assoc. cbn [app].
    cbn [seq map]. rewrite <- seq_shift, !map_map.
    rewrite !Nat.add_0_r.
    replace (Z.max (Z.max (tick w) at_tick) at_tick)
      with (Z.max (tick w) at_tick) by lia.
    split; do 2 f_equal; apply map_ext; intros i.
    + now rewrite Nat.add_succ_r.
    + rewrite length_app. cbn [length].
      f_equal; [lia|]. do 3 f_equal. lia.
Qed.

(** Timer expiries in a running loop with a send pending: the loop goes
    on, each expiry makes one send and leaves as many sends pending. *)
Lemma expiries_keep_the_chain (n : nat) :
  forall w : World,
    pending w <> [] ->
    break_requested w = false ->
    exists w',
      dispatch_forever (repeat Expire n) w = Dispatching w' /\
      length (pending w') = length (pending w) /\
      length (sent w') = (length (sent w) + n)%nat /\
      break_requested w' = false.
Proof.
  induction n as [|n IH]; intros w Hpending Hrun.
  - exists w. cbn [repeat dispatch_forever]. rewrite Hrun.
    repeat split; auto.
  - destruct (take_earliest_nonempty _ Hpending) as (t & rest & Htake).
    cbn [repeat].
    erewrite dispatch_forever_step;
      [|exact Hrun|apply (deliver_expire w t rest Htake)].
    match goal with
    | |- context [dispatch_forever _ ?x] =>
        destruct (IH x) as (w' & Hloop & Hcount & Hsent & Hrun')
    end.
    + cbn [after_send pending]. now destruct rest.
    + exact Hrun.
    + exists w'. split; [exact Hloop|].
      rewrite Hcount, Hsent.
      cbn [after_send pending sent].
      rewrite !length_app, (take_earliest_length _ _ _ Htake).
      cbn [length]. repeat split; [lia | lia | exact Hrun'].
Qed.

(** C9: in every world, every execution of [send_message] returns having
    posted exactly one [send_message] timer, 3000 or 10000 ms ahead of the
    current tick, behind the timers already pending; and in a running loop
    with a send pending, after any number [n] of timer expiries the loop is
    still dispatching, as many sends are pending as before, and [n] more
    sends have been made. *)
Theorem send_chain_never_ends :
  (forall w : World,
     exists w' delay,
       send_message w = Ok tt w' /\
       pending w' =
         pending w ++ [mkTimer (posted w) (tick w + delay) cb_send_message] /\
       (delay = 3000 \/ delay = 10000)) /\
  (forall (n : nat) (w : World),
     pending w <> [] ->
     break_requested w = false ->
     exists w',
       dispatch_forever (repeat Expire n) w = Dispatching w' /\
       length (pending w') = length (pending w) /\
       length (sent w') = (length (sent w) + n)%nat /\
       break_requested w' = false).
Proof.
  split.
  - intros w.
    exists (after_send w), (resend_delay (send_returns (length (sent w)))).
    split; [apply send_message_after|].
    split; [reflexivity | apply resend_delay_cases].
  - intros n w Hpending Hrun.
    apply expiries_keep_the_chain; assumption.
Qed.

(** ** [main] *)

(** [main] returns [-1] without dispatching when [initialize],
    [set_confirmed_msg_retries], [disable_adaptive_datarate] or [connect]
    fails. *)
Lemma main_checked_failure_exits (stimuli : list stimulus) (w : World) :
  initialize_returns <> LORAWAN_STATUS_OK \/
  set_confirmed_msg_retries_returns <> LORAWAN_STATUS_OK \/
  disable_adaptive_datarate_returns <> LORAWAN_STATUS_OK \/
  (connect_returns <> LORAWAN_STATUS_OK /\
   connect_returns <> LORAWAN_STATUS_CONNECT_IN_PROGRESS) ->
  exists w',
    main stimuli w = Ok (-1) w' /\
    pending w' = pending w /\
    sent w' = sent w /\
    received w' = received w.
Proof.
  intros Hfail. unfold main.
  do 3 run_call.
  destruct (Z.eqb_spec initialize_returns LORAWAN_STATUS_OK) as [Hinit|_];
    cbn [negb]; [|eexists; split; [reflexivity | cbn; auto]].
  do 3 run_call.
  destruct (Z.eqb_spec set_confirmed_msg_retries_returns LORAWAN_STATUS_OK)
    as [Hretries|_]; cbn [negb]; [|eexists; split; [reflexivity | cbn; auto]].
  run_call.
  destruct (Z.eqb_spec disable_adaptive_datarate_returns LORAWAN_STATUS_OK)
    as [Hadr|_]; cbn [negb]; [|eexists; split; [reflexivity | cbn; auto]].
  do 2 run_call.
  destruct (Z.eqb_spec connect_returns LORAWAN_STATUS_OK) as [Hok|Hnok];
    cbn [orb]; [tauto|].
  destruct (Z.eqb_spec connect_returns LORAWAN_STATUS_CONNECT_IN_PROGRESS)
    as [Hprog|Hnprog]; [tauto|].
  eexists; split; [reflexivity | cbn; auto].
Qed.

(** When those four calls succeed, [main] dispatches and, once
    [dispatch_forever] returns, returns [0]; the status of
    [add_app_callbacks] plays no part. *)
Lemma main_dispatches (stimuli : list stimulus) (w : World) :
  initialize_returns = LORAWAN_STATUS_OK ->
  set_confirmed_msg_retries_returns = LORAWAN_STATUS_OK ->
  disable_adaptive_datarate_returns = LORAWAN_STATUS_OK ->
  connect_returns = LORAWAN_STATUS_OK \/
  connect_returns = LORAWAN_STATUS_CONNECT_IN_PROGRESS ->
  main stimuli w =
    bind (dispatch_forever stimuli) (fun _ => ret 0) (started w).
Proof.
  intros Hinit Hretries Hadr Hconnect. unfold main.
  do 3 run_call.
  rewrite Hinit, Z.eqb_refl. cbn [negb].
  do 3 run_call.
  rewrite Hretries, Z.eqb_refl. cbn [negb].
  run_call.
  rewrite Hadr, Z.eqb_refl. cbn [negb].
  do 2 run_call.
  replace ((connect_returns =? LORAWAN_STATUS_OK)
           || (connect_returns =? LORAWAN_STATUS_CONNECT_IN_PROGRESS))
    with true
    by (symmetry; apply orb_true_iff;
        destruct Hconnect as [H|H]; [left|right]; now apply Z.eqb_eq).
  run_call.
  unfold started. cbn.
  rewrite <- !app_assoc. reflexivity.
Qed.

(** * Further properties of the callbacks *)

(** ** The dump loop on any count *)

Lemma logged_twice (l1 l2 : list printf_call) (w : World) :
  logged l2 (logged l1 w) = logged (l1 ++ l2) w.
Proof. unfold logged. cbn. now rewrite app_assoc. Qed.

(** The loop for a count beyond the buffer: it prints the bytes that are
    left and then indexes the array outside its bounds, where the source's
    behaviour is undefined and the run is followed no further. *)
Lemma rx_dump_overruns (todo : list Z) :
  forall (fuel : nat) (done : list Z) (retcode : Z) (w : World),
    (length todo < fuel)%nat ->
    (length (done ++ todo) <= 255)%nat ->
    Z.of_nat (length (done ++ todo)) < retcode ->
    rx_dump fuel (Z.of_nat (length done)) retcode (done ++ todo) w
    = Crash OutOfBoundsRead (logged (map hex_line todo) w).
Proof.
  induction todo as [|b todo IH]; intros fuel done retcode w Hfuel Hlen Hover.
  - destruct fuel as [|fuel]; [cbn in Hfuel; lia|].
    cbn [rx_dump]. rewrite app_nil_r in *.
    replace (Z.of_nat (length done) <? retcode) with true
      by (symmetry; apply Z.ltb_lt; lia).
    rewrite Nat2Z.id.
    replace (nth_error done (length done)) with (@None Z)
      by (symmetry; apply nth_error_None; lia).
    cbn [map]. now rewrite logged_nil.
  - destruct fuel as [|fuel]; [cbn in Hfuel; lia|].
    cbn [rx_dump].
    rewrite length_app in *. cbn [length] in *.
    replace (Z.of_nat (length done) <? retcode) with true
      by (symmetry; apply Z.ltb_lt; lia).
    rewrite Nat2Z.id, nth_error_app2 by lia.
    rewrite Nat.sub_diag. cbn [nth_error].
    unfold bind at 1. cbn [printf].
    replace ((Z.of_nat (length done) + 1) mod 256)
      with (Z.of_nat (length (done ++ [b])))
      by (rewrite length_app; cbn [length];
          rewrite Z.mod_small by lia; lia).
    replace (done ++ b :: todo) with ((done ++ [b]) ++ todo)
      by (now rewrite <- app_assoc).
    rewrite IH.
    + unfold logged, hex_line. cbn. now rewrite <- app_assoc.
    + lia.
    + rewrite !length_app. cbn [length]. lia.
    + rewrite !length_app. cbn [length]. lia.
Qed.

(** The buffer [receive_message] hands to the loop: 50 bytes, the
    delivered ones first, zeros behind. *)
Lemma rx_buffer_length (data : list Z) :
  length (overwrite (repeat 0 50) (firstn (Z.to_nat 50) data)) = 50%nat.
Proof.
  unfold overwrite.
  rewrite length_app, length_skipn, repeat_length.
  pose proof (firstn_le_length (Z.to_nat 50) data).
  pose proof (length_firstn (Z.to_nat 50) data). lia.
Qed.

Lemma rx_buffer_prefix (data : list Z) (k : nat) :
  (k <= 50)%nat ->
  firstn k (overwrite (repeat 0 50) (firstn (Z.to_nat 50) data))
  = firstn k (data ++ repeat 0 50).
Proof.
  intros Hk. unfold overwrite.
  change (Z.to_nat 50) with 50%nat.
  destruct (Nat.le_gt_cases 50 (length data)) as [Hlong | Hshort].
  - rewrite length_firstn, Nat.min_l by lia.
    rewrite skipn_all2 by (rewrite repeat_length; lia).
    rewrite app_nil_r, firstn_firstn, Nat.min_l by lia.
    rewrite firstn_app.
    replace (k - length data)%nat with 0%nat by lia.
    cbn [firstn]. now rewrite app_nil_r.
  - rewrite (@firstn_all2 Z 50 data) by lia.
    rewrite !firstn_app. f_equal.
    assert (Hzeros : forall n m,
               firstn n (repeat 0 m) = repeat 0 (Nat.min n m)).
    { induction n as [|n IHn]; intros [|m]; cbn; try reflexivity.
      now rewrite IHn. }
    assert (Hdrop : forall n m,
               skipn n (repeat 0 m) = repeat 0 (m - n)).
    { induction n as [|n IHn]; intros [|m]; cbn; try reflexivity.
      now rewrite IHn. }
    rewrite Hdrop, !Hzeros. f_equal. lia.
Qed.

(** The loop for a count that fits the buffer: it prints that many bytes
    of the buffer and returns. *)
Lemma rx_dump_prefix (rx_buffer : list Z) (retcode : Z) (w : World) :
  0 <= retcode <= Z.of_nat (length rx_buffer) ->
  (length rx_buffer <= 50)%nat ->
  rx_dump rx_dump_fuel 0 retcode rx_buffer w
  = Ok tt (logged (map hex_line (firstn (Z.to_nat retcode) rx_buffer)) w).
Proof.
  intros Hcount Hlen.
  pose proof (rx_dump_from_start
                (firstn (Z.to_nat retcode) rx_buffer)
                (skipn (Z.to_nat retcode) rx_buffer) w) as Hrun.
  rewrite firstn_skipn, length_firstn, Nat.min_l, Z2Nat.id in Hrun by lia.
  apply Hrun. lia.
Qed.

(** [receive_message] for a count between 0 and 50. *)
Lemma receive_message_within_buffer
    (w : World) (retcode : Z) (data : list Z) :
  receive_returns (length (received w)) = (retcode, data) ->
  0 <= retcode <= 50 ->
  receive_message w =
    Ok tt
       (logged
          (("RX Data (%d bytes): ", [Int retcode])
           :: map hex_line
                (firstn (Z.to_nat retcode) (data ++ repeat 0 50))
           ++ [("\r\n", [])])
          (asked w)).
Proof.
  intros Hret Hcount.
  unfold receive_message.
  erewrite bind_ok
    by (unfold lorawan_receive; rewrite Hret; cbn [fst snd]; reflexivity).
  cbn [fst snd].
  replace (retcode <? 0) with false by (symmetry; apply Z.ltb_ge; lia).
  erewrite bind_ok by reflexivity.
  erewrite bind_ok
    by (apply rx_dump_prefix; rewrite rx_buffer_length; lia).
  rewrite rx_buffer_prefix by lia.
  unfold printf, logged, asked.
  cbn [tick posted pending break_requested console sent received readings
       setup].
  rewrite <- !app_assoc. reflexivity.
Qed.

Lemma rx_dump_overruns_from_start
    (rx_buffer : list Z) (retcode : Z) (w : World) :
  (length rx_buffer <= 50)%nat ->
  Z.of_nat (length rx_buffer) < retcode ->
  rx_dump rx_dump_fuel 0 retcode rx_buffer w
  = Crash OutOfBoundsRead (logged (map hex_line rx_buffer) w).
Proof.
  intros Hlen Hover.
  apply (rx_dump_overruns rx_buffer rx_dump_fuel [] retcode w).
  - unfold rx_dump_fuel. lia.
  - cbn [app]. lia.
  - cbn [app]. lia.
Qed.

(** [receive_message] for a count above 50, up to the point where the
    loop leaves the array. *)
Lemma receive_message_beyond_buffer
    (w : World) (retcode : Z) (data : list Z) :
  receive_returns (length (received w)) = (retcode, data) ->
  50 < retcode ->
  receive_message w =
    Crash OutOfBoundsRead
       (logged
          (("RX Data (%d bytes): ", [Int retcode])
           :: map hex_line (firstn 50 (data ++ repeat 0 50)))
          (asked w)).
Proof.
  intros Hret Hcount.
  unfold receive_message.
  erewrite bind_ok
    by (unfold lorawan_receive; rewrite Hret; cbn [fst snd]; reflexivity).
  cbn [fst snd].
  replace (retcode <? 0) with false by (symmetry; apply Z.ltb_ge; lia).
  erewrite bind_ok by reflexivity.
  pose proof (rx_buffer_length data) as Hlen.
  pose proof (rx_buffer_prefix data 50 (Nat.le_refl 50)) as Hprefix.
  rewrite firstn_all2 in Hprefix by lia.
  unfold bind at 1.
  rewrite rx_dump_overruns_from_start by lia.
  rewrite Hprefix.
  unfold printf, logged, asked.
  cbn [tick posted pending break_requested console sent received readings
       setup].
  rewrite <- !app_assoc. reflexivity.
Qed.

(** X3: for a count between 0 and 50 [receive_message] returns, whatever
    the stack delivered: it prints the count and then that many bytes of
    the zero-initialised buffer, that is the delivered bytes followed by
    zeros, cut at the count, and the closing line.  It makes one receive
    call and leaves queue and sends alone. *)
Theorem receive_message_prints_buffer_prefix
    (w : World) (retcode : Z) (data : list Z) :
  receive_returns (length (received w)) = (retcode, data) ->
  0 <= retcode <= 50 ->
  exists w',
    receive_message w = Ok tt w' /\
    console w' =
      console w ++
        [("RX Data (%d bytes): ", [Int retcode])] ++
        map (fun b => ("%02x ", [Int b]))
            (firstn (Z.to_nat retcode) (data ++ repeat 0 50)) ++
        [("\r\n", [])] /\
    received w' = received w ++ [downlink_request] /\
    pending w' = pending w /\
    sent w' = sent w.
Proof.
  intros Hret Hcount. eexists. split.
  - apply (receive_message_within_buffer w retcode data Hret Hcount).
  - cbn [logged asked console received pending sent app].
    repeat split; reflexivity.
Qed.

(** X5: the event callback always comes back to the dispatcher.  For
    every event the handler returns, without tripping an assertion and
    without hanging in the dump loop; for [RX_DONE] this needs what the
    stack promises for a 50-byte request, a count of at most 50 (or a
    negative status). *)
Theorem handler_returns_within_buffer
    (event : lorawan_event_t) (w : World) :
  (event = RX_DONE ->
   fst (receive_returns (length (received w))) <= 50) ->
  exists w', lora_event_handler event w = Ok tt w'.
Proof.
  intros Hport.
  destruct event;
    lazymatch goal with
    | |- context [lora_event_handler RX_DONE] => idtac
    | |- context [lora_event_handler UPLINK_REQUIRED] => idtac
    | _ => eexists; reflexivity
    end.
  - specialize (Hport eq_refl).
    unfold lora_event_handler. erewrite bind_ok by reflexivity.
    match goal with
    | |- context [receive_message ?x] => set (w1 := x)
    end.
    change (length (received w)) with (length (received w1)) in Hport.
    destruct (receive_returns (length (received w1))) as [retcode data]
      eqn:Hret.
    cbn [fst] in Hport.
    destruct (Z.lt_ge_cases retcode 0) as [Hneg | Hpos].
    + destruct (receive_message_reports_failure w1 retcode data Hret Hneg)
        as (w2 & Hrun & _).
      exists w2. exact Hrun.
    + eexists.
      apply (receive_message_within_buffer w1 retcode data Hret). lia.
  - unfold lora_event_handler. erewrite bind_ok by reflexivity.
    eexists. apply send_message_after.
Qed.

(** ** What one callback leaves untouched *)

Lemma receive_message_world (w : World) :
  exists lines, world_of (receive_message w) = logged lines (asked w).
Proof.
  destruct (receive_returns (length (received w))) as [retcode data]
    eqn:Hret.
  destruct (Z.lt_ge_cases retcode 0) as [Hneg | Hpos].
  - exists [("receive() - Error code %d \r\n", [Int retcode])].
    unfold receive_message.
    erewrite bind_ok
      by (unfold lorawan_receive; rewrite Hret; cbn [fst snd]; reflexivity).
    cbn [fst snd]. apply Z.ltb_lt in Hneg. rewrite Hneg. reflexivity.
  - destruct (Z.le_gt_cases retcode 50) as [Hfits | Hover].
    + rewrite (receive_message_within_buffer w retcode data Hret)
        by lia.
      eexists. reflexivity.
    + rewrite (receive_message_beyond_buffer w retcode data Hret) by lia.
      eexists. reflexivity.
Qed.

(** The effect of the handler on everything but the console and the
    queue, event by event. *)
Lemma handler_frame (event : lorawan_event_t) (w : World) :
  tick (world_of (lora_event_handler event w)) = tick w /\
  setup (world_of (lora_event_handler event w)) = setup w /\
  break_requested (world_of (lora_event_handler event w))
    = match event with
      | DISCONNECTED => true
      | _ => break_requested w
      end /\
  received (world_of (lora_event_handler event w))
    = received w ++ match event with
                    | RX_DONE => [downlink_request]
                    | _ => []
                    end /\
  sent (world_of (lora_event_handler event w))
    = sent w ++ match event with
                | UPLINK_REQUIRED => [uplink_of (readings w)]
                | _ => []
                end /\
  readings (world_of (lora_event_handler event w))
    = match event with
      | UPLINK_REQUIRED => S (readings w)
      | _ => readings w
      end.
Proof.
  destruct event;
    lazymatch goal with
    | |- context [lora_event_handler RX_DONE] =>
        unfold lora_event_handler; erewrite bind_ok by reflexivity;
        match goal with
        | |- context [receive_message ?x] =>
            destruct (receive_message_world x) as (lines & ->)
        end
    | |- context [lora_event_handler UPLINK_REQUIRED] =>
        unfold lora_event_handler; erewrite bind_ok by reflexivity;
        rewrite send_message_after
    | _ => idtac
    end;
    cbn; rewrite ?app_nil_r; repeat split; reflexivity.
Qed.

(** The same for one stimulus of the run loop. *)
Lemma deliver_frame (s : stimulus) (w : World) :
  setup (world_of (deliver s w)) = setup w /\
  break_requested (world_of (deliver s w))
    = match s with
      | Net _ DISCONNECTED => true
      | _ => break_requested w
      end /\
  received (world_of (deliver s w))
    = received w ++ match s with
                    | Net _ RX_DONE => [downlink_request]
                    | _ => []
                    end /\
  sent (world_of (deliver s w))
    = sent w ++ (if sends s w then [uplink_of (readings w)] else []) /\
  readings (world_of (deliver s w))
    = if sends s w then S (readings w) else readings w.
Proof.
  destruct s as [at_tick event|].
  - cbn [deliver]. erewrite bind_ok by reflexivity.
    match goal with
    | |- context [lora_event_handler event ?x] =>
        destruct (handler_frame event x)
          as (_ & Hsetup & Hbreak & Hreceived & Hsent & Hreadings)
    end.
    rewrite Hsetup, Hbreak, Hreceived, Hsent, Hreadings.
    destruct event; cbn; repeat split; reflexivity.
  - cbn [sends].
    destruct (take_earliest (pending w)) as [[t rest]|] eqn:Htake.
    + rewrite (deliver_expire w t rest Htake).
      destruct (pending w) as [|t0 q]; [discriminate|].
      cbn. rewrite ?app_nil_r. repeat split; reflexivity.
    + cbn [deliver]. rewrite Htake.
      destruct (pending w) as [|t0 q] eqn:Hq.
      * cbn. rewrite ?app_nil_r. repeat split; reflexivity.
      * exfalso.
        destruct (take_earliest_nonempty (t0 :: q)) as (t & r & Hsome);
          [discriminate|congruence].
Qed.

Lemma world_of_then_ret {A : Type} (m : M unit) (a : A) (w : World) :
  world_of (bind m (fun _ => ret a) w) = world_of (m w).
Proof. unfold bind. destruct (m w) as [[] w1|c w1|w1]; reflexivity. Qed.

(** [main] either returns [-1] before dispatching, having touched only
    the console and the configuration, or dispatches from [started]. *)
Lemma main_cases (stimuli : list stimulus) (w : World) :
  (exists w',
     main stimuli w = Ok (-1) w' /\
     pending w' = pending w /\
     break_requested w' = break_requested w /\
     sent w' = sent w /\
     received w' = received w /\
     readings w' = readings w) \/
  main stimuli w =
    bind (dispatch_forever stimuli) (fun _ => ret 0) (started w).
Proof.
  destruct (Z.eq_dec initialize_returns LORAWAN_STATUS_OK) as [Hinit|Hinit];
    [destruct (Z.eq_dec set_confirmed_msg_retries_returns LORAWAN_STATUS_OK)
       as [Hretries|Hretries];
     [destruct (Z.eq_dec disable_adaptive_datarate_returns LORAWAN_STATUS_OK)
        as [Hadr|Hadr];
      [destruct (Z.eq_dec connect_returns LORAWAN_STATUS_OK)
         as [Hok|Hok];
       [|destruct (Z.eq_dec connect_returns
                     LORAWAN_STATUS_CONNECT_IN_PROGRESS) as [Hprog|Hprog]]
      |]|]|].
  1, 2: right; apply main_dispatches; auto.
  all: left; unfold main.
  - do 3 run_call. rewrite Hinit, Z.eqb_refl. cbn [negb].
    do 3 run_call. rewrite Hretries, Z.eqb_refl. cbn [negb].
    run_call. rewrite Hadr, Z.eqb_refl. cbn [negb].
    do 2 run_call.
    apply Z.eqb_neq in Hok, Hprog. rewrite Hok, Hprog. cbn [orb].
    eexists. split; [reflexivity|]. cbn. repeat split; reflexivity.
  - do 3 run_call. rewrite Hinit, Z.eqb_refl. cbn [negb].
    do 3 run_call. rewrite Hretries, Z.eqb_refl. cbn [negb].
    run_call. apply Z.eqb_neq in Hadr. rewrite Hadr. cbn [negb].
    eexists. split; [reflexivity|]. cbn. repeat split; reflexivity.
  - do 3 run_call. rewrite Hinit, Z.eqb_refl. cbn [negb].
    do 3 run_call. apply Z.eqb_neq in Hretries. rewrite Hretries.
    cbn [negb].
    eexists. split; [reflexivity|]. cbn. repeat split; reflexivity.
  - do 3 run_call. apply Z.eqb_neq in Hinit. rewrite Hinit. cbn [negb].
    eexists. split; [reflexivity|]. cbn. repeat split; reflexivity.
Qed.

(** ** Whole runs *)

(** [dispatch_forever] returns only on a stop request, and in a loop that
    was running only [DISCONNECTED] makes one. *)
Lemma dispatch_returns_when_stopped (stimuli : list stimulus) :
  forall w w',
    dispatch_forever stimuli w = Ok tt w' ->
    break_requested w' = true /\
    (break_requested w = true \/
     exists at_tick, In (Net at_tick DISCONNECTED) stimuli).
Proof.
  induction stimuli as [|s stimuli IH]; intros w w' Hrun;
    cbn [dispatch_forever] in Hrun;
    destruct (break_requested w) eqn:Hstop;
    try (injection Hrun as <-; now auto); try discriminate.
  unfold bind in Hrun.
  pose proof (deliver_frame s w) as (_ & Hbreak & _).
  destruct (deliver s w) as [[] w1|c w1|w1]; try discriminate.
  cbn [world_of] in Hbreak.
  destruct (IH w1 w' Hrun) as (Hstopped & [Hearlier | (t & Hlater)]).
  - split; [exact Hstopped|]. right.
    destruct s as [at_tick event|]; [destruct event|]; try congruence.
    exists at_tick. now left.
  - split; [exact Hstopped|]. right. exists t. now right.
Qed.

(** X2: [main] returns nothing but [-1] and [0], and it returns [0] only
    when [DISCONNECTED] was among the events delivered: no error event,
    send failure or receive failure ends the program. *)
Theorem main_returns_zero_only_after_disconnected
    (stimuli : list stimulus) (code : Z) (w' : World) :
  main stimuli boot = Ok code w' ->
  code = -1 \/
  (code = 0 /\
   break_requested w' = true /\
   exists at_tick, In (Net at_tick DISCONNECTED) stimuli).
Proof.
  intros Hrun.
  destruct (main_cases stimuli boot) as [(w1 & Hexit & _) | Hloop].
  - left. congruence.
  - right. rewrite Hloop in Hrun. unfold bind in Hrun.
    destruct (dispatch_forever stimuli (started boot)) as [[] w1|c w1|w1]
      eqn:Hdispatch; try discriminate.
    injection Hrun as <- <-.
    destruct (dispatch_returns_when_stopped _ _ _ Hdispatch)
      as (Hstopped & [Habsurd | Hevent]); [discriminate|].
    auto.
Qed.

Lemma deliver_only_logs
    (at_tick : Z) (event : lorawan_event_t) (w : World) :
  only_logs event = true ->
  exists line,
    deliver (Net at_tick event) w =
      Ok tt
         (logged [line]
            (mkWorld (Z.max (tick w) at_tick) (posted w) (pending w)
               (break_requested w) (console w)
               (sent w) (received w) (readings w) (setup w))).
Proof.
  destruct event; try discriminate; intros _; eexists; reflexivity.
Qed.

(** X6: transmission errors, reception errors and a failed join are
    absorbed: a running loop that is delivered any number of [TX_DONE],
    [TX_TIMEOUT], [TX_ERROR], [TX_CRYPTO_ERROR], [TX_SCHEDULING_ERROR],
    [RX_TIMEOUT], [RX_ERROR] and [JOIN_FAILURE] events keeps dispatching;
    it prints one line per event and neither posts, cancels, sends,
    receives, reads the sensor, asks to stop nor calls the stack's
    configuration again (no new connect request). *)
Theorem reported_failures_are_absorbed
    (events : list (Z * lorawan_event_t)) :
  forall w : World,
    Forall (fun te => only_logs (snd te) = true) events ->
    break_requested w = false ->
    exists w',
      dispatch_forever (map (fun te => Net (fst te) (snd te)) events) w
      = Dispatching w' /\
      pending w' = pending w /\
      posted w' = posted w /\
      sent w' = sent w /\
      received w' = received w /\
      readings w' = readings w /\
      break_requested w' = false /\
      length (console w') = (length (console w) + length events)%nat /\
      setup w' = setup w.
Proof.
  induction events as [|[at_tick event] events IH]; intros w Hlogs Hrun.
  - exists w. cbn [map dispatch_forever length]. rewrite Hrun.
    repeat split; auto.
  - inversion Hlogs as [|te rest Hevent Hrest]; subst.
    cbn [fst snd] in Hevent.
    destruct (deliver_only_logs at_tick event w Hevent) as (line & Hstep).
    cbn [map fst snd].
    rewrite (dispatch_forever_step _ _ _ _ Hrun Hstep).
    match goal with
    | |- context [dispatch_forever _ ?x] =>
        destruct (IH x Hrest Hrun)
          as (w' & Hloop & Hpending & Hposted & Hsent & Hreceived
              & Hreadings & Hstop & Hconsole & Hsetup)
    end.
    exists w'. split; [exact Hloop|].
    rewrite Hpending, Hposted, Hsent, Hreceived, Hreadings, Hconsole,
      Hsetup.
    cbn [logged pending posted sent received readings console setup].
    rewrite length_app. cbn [length].
    repeat split; auto; lia.
Qed.

Lemma arms_zero_sends_nothing (s : stimulus) (w : World) :
  arms s = 0%nat -> pending w = [] -> sends s w = false.
Proof.
  intros Harms Hpending.
  destruct s as [at_tick event|]; cbn [sends].
  - destruct event; try reflexivity; discriminate.
  - now rewrite Hpending.
Qed.

Lemma quiet_dispatch (stimuli : list stimulus) :
  forall w : World,
    arming stimuli = 0%nat ->
    pending w = [] ->
    sent (world_of (dispatch_forever stimuli w)) = sent w /\
    pending (world_of (dispatch_forever stimuli w)) = [] /\
    readings (world_of (dispatch_forever stimuli w)) = readings w.
Proof.
  induction stimuli as [|s stimuli IH]; intros w Harming Hpending;
    cbn [dispatch_forever]; destruct (break_requested w);
    cbn [world_of]; auto.
  unfold arming, list_sum in Harming. cbn [map fold_right] in Harming.
  assert (Hs : arms s = 0%nat) by lia.
  assert (Hrest : arming stimuli = 0%nat)
    by (unfold arming, list_sum; lia).
  pose proof (deliver_frame s w) as (_ & _ & _ & Hsent & Hreadings).
  pose proof (deliver_bound s w) as Hbound.
  rewrite (arms_zero_sends_nothing s w Hs Hpending) in Hsent, Hreadings.
  rewrite app_nil_r in Hsent.
  rewrite Hpending, Hs in Hbound. cbn [length Nat.add] in Hbound.
  unfold bind.
  destruct (deliver s w) as [[] w1|c w1|w1]; cbn [world_of] in *;
    assert (Hnone : pending w1 = [])
      by (destruct (pending w1); [reflexivity | cbn in Hbound; lia]);
    auto.
  destruct (IH w1 Hrest Hnone) as (Hsent' & Hpending' & Hreadings').
  rewrite Hsent', Hreadings'. auto.
Qed.

(** X7: without a [CONNECTED] or [UPLINK_REQUIRED] event the application
    never transmits: whatever else is delivered, at every point of the run
    nothing has been sent, the sensor has not been read and no send is
    scheduled. *)
Theorem nothing_is_sent_before_joining (stimuli : list stimulus) :
  arming stimuli = 0%nat ->
  sent (world_of (main stimuli boot)) = [] /\
  pending (world_of (main stimuli boot)) = [] /\
  readings (world_of (main stimuli boot)) = 0%nat.
Proof.
  intros Harming.
  destruct (main_cases stimuli boot)
    as [(w1 & -> & Hpending & _ & Hsent & _ & Hreadings) | ->].
  - cbn [world_of]. auto.
  - rewrite world_of_then_ret.
    apply (quiet_dispatch stimuli (started boot) Harming). reflexivity.
Qed.

Lemma dispatch_keeps_records (stimuli : list stimulus) :
  forall w : World,
    sent w = map uplink_of (seq 0 (readings w)) ->
    received w = repeat downlink_request (length (received w)) ->
    sent (world_of (dispatch_forever stimuli w))
      = map uplink_of
          (seq 0 (readings (world_of (dispatch_forever stimuli w)))) /\
    received (world_of (dispatch_forever stimuli w))
      = repeat downlink_request
          (length (received (world_of (dispatch_forever stimuli w)))).
Proof.
  induction stimuli as [|s stimuli IH]; intros w Hsent Hreceived;
    cbn [dispatch_forever]; destruct (break_requested w);
    cbn [world_of]; auto.
  pose proof (deliver_frame s w) as (_ & _ & Hrx & Htx & Hreadings).
  assert (Hsent1 : sent (world_of (deliver s w))
                   = map uplink_of
                       (seq 0 (readings (world_of (deliver s w))))).
  { rewrite Htx, Hreadings. destruct (sends s w).
    - rewrite seq_S, map_app. cbn [map Nat.add]. now rewrite <- Hsent.
    - now rewrite app_nil_r. }
  assert (Hreceived1 : received (world_of (deliver s w))
                       = repeat downlink_request
                           (length (received (world_of (deliver s w))))).
  { rewrite Hrx.
    assert (Hgrow : received w ++ [downlink_request]
                    = repeat downlink_request
                        (length (received w ++ [downlink_request]))).
    { rewrite length_app. cbn [length]. rewrite Nat.add_1_r.
      cbn [repeat]. rewrite repeat_cons. now rewrite <- Hreceived. }
    destruct s as [at_tick event|]; [destruct event|];
      rewrite ?app_nil_r; assumption. }
  unfold bind.
  destruct (deliver s w) as [[] w1|c w1|w1]; cbn [world_of] in *; auto.
Qed.

(** X8: at every point of every run each send so far was made on port 15
    with [MSG_UNCONFIRMED_FLAG] and carried the channel-1 encoding of its
    own sensor reading, the k-th send that of the k-th reading; and each
    receive so far asked for 50 bytes on port 15 with both message
    flags. *)
Theorem every_uplink_carries_a_fresh_reading (stimuli : list stimulus) :
  sent (world_of (main stimuli boot))
    = map uplink_of (seq 0 (readings (world_of (main stimuli boot)))) /\
  received (world_of (main stimuli boot))
    = repeat downlink_request
        (length (received (world_of (main stimuli boot)))).
Proof.
  destruct (main_cases stimuli boot)
    as [(w1 & -> & _ & _ & Hsent & Hreceived & Hreadings) | ->].
  - cbn [world_of]. rewrite Hsent, Hreceived, Hreadings. split; reflexivity.
  - rewrite world_of_then_ret.
    apply dispatch_keeps_records; reflexivity.
Qed.

Lemma resend_delay_positive (retcode : Z) : 0 < resend_delay retcode.
Proof. destruct (resend_delay_cases retcode) as [-> | ->]; lia. Qed.

Lemma total_delay_all_sent (n : nat) :
  forall first : nat,
    (forall i, (i < n)%nat -> 0 <= send_returns (first + i)) ->
    total_delay first n = TX_INTERVAL * Z.of_nat n.
Proof.
  induction n as [|n IH]; intros first Hsent; cbn [total_delay]; [lia|].
  rewrite resend_delay_otherwise
    by (left; rewrite <- (Nat.add_0_r first); apply Hsent; lia).
  rewrite IH; [lia|].
  intros i Hi. replace (S first + i)%nat with (first + S i)%nat by lia.
  apply Hsent. lia.
Qed.

(** X9: a single pending send stays single.  In a running loop whose only
    timer is due at [d], after [n] expiries exactly one timer is pending;
    it is due at [d] plus the delays chosen by the [n] sends made, the last
    of which was made at the tick at which its timer was due; when all
    [n] sends succeed that is [d + n * 10000]. *)
Theorem single_chain_schedule (n : nat) :
  forall (w : World) (id : nat) (d : Z),
    pending w = [mkTimer id d cb_send_message] ->
    break_requested w = false ->
    tick w <= d ->
    exists w',
      dispatch_forever (repeat Expire n) w = Dispatching w' /\
      map due (pending w') = [d + total_delay (length (sent w)) n] /\
      length (sent w') = (length (sent w) + n)%nat /\
      ((0 < n)%nat ->
       tick w' = d + total_delay (length (sent w)) (n - 1)) /\
      ((forall i, (i < n)%nat -> 0 <= send_returns (length (sent w) + i)) ->
       map due (pending w') = [d + 10000 * Z.of_nat n]).
Proof.
  induction n as [|n IH]; intros w id d Hpending Hrun Htick.
  - exists w. cbn [repeat dispatch_forever total_delay]. rewrite Hrun.
    rewrite Hpending. cbn [map due]. rewrite !Z.add_0_r, Nat.add_0_r.
    repeat split; auto. lia.
  - cbn [repeat].
    assert (Htake : take_earliest (pending w)
                    = Some (mkTimer id d cb_send_message, []))
      by (rewrite Hpending; reflexivity).
    rewrite (dispatch_forever_step _ _ _ _ Hrun (deliver_expire _ _ _ Htake)).
    cbn [due].
    match goal with
    | |- context [dispatch_forever _ ?x] =>
        destruct (IH x (posted w)
                    (d + resend_delay (send_returns (length (sent w)))))
          as (w' & Hloop & Hdue & Hsent & Hlast & _)
    end.
    + cbn [after_send pending sent tick posted app].
      now rewrite Z.max_r by lia.
    + exact Hrun.
    + cbn [after_send tick].
      pose proof (resend_delay_positive (send_returns (length (sent w)))).
      lia.
    + exists w'. split; [exact Hloop|].
      cbn [after_send sent] in Hdue, Hsent, Hlast.
      rewrite length_app in Hdue, Hsent, Hlast.
      cbn [length] in Hdue, Hsent, Hlast.
      rewrite Nat.add_1_r in Hdue, Hsent, Hlast.
      assert (Hnext : map due (pending w')
                      = [d + total_delay (length (sent w)) (S n)])
        by (rewrite Hdue; cbn [total_delay]; f_equal; lia).
      split; [exact Hnext|].
      split; [lia|]. split.
      * intros _. cbn [Nat.sub]. rewrite Nat.sub_0_r.
        destruct n as [|n].
        -- cbn [repeat dispatch_forever] in Hloop. rewrite Hrun in Hloop.
           injection Hloop as <-.
           cbn [after_send tick total_delay]. lia.
        -- rewrite Hlast by lia. cbn [Nat.sub total_delay].
           rewrite Nat.sub_0_r. lia.
      * intros Hall. rewrite Hnext.
        rewrite (total_delay_all_sent (S n) _ Hall).
        unfold TX_INTERVAL. reflexivity.
Qed.

(** X1: when [initialize], [set_confirmed_msg_retries],
    [disable_adaptive_datarate] or [connect] fails, [main] returns [-1]
    without dispatching: the world it leaves is the same whatever events
    and timer expiries are waiting, and nothing was posted, sent, received
    or read from the sensor. *)
Theorem startup_failure_exits_before_dispatch (w : World) :
  initialize_returns <> LORAWAN_STATUS_OK \/
  set_confirmed_msg_retries_returns <> LORAWAN_STATUS_OK \/
  disable_adaptive_datarate_returns <> LORAWAN_STATUS_OK \/
  (connect_returns <> LORAWAN_STATUS_OK /\
   connect_returns <> LORAWAN_STATUS_CONNECT_IN_PROGRESS) ->
  exists w',
    (forall stimuli, main stimuli w = Ok (-1) w') /\
    pending w' = pending w /\
    posted w' = posted w /\
    sent w' = sent w /\
    received w' = received w /\
    readings w' = readings w /\
    break_requested w' = break_requested w.
Proof.
  intros Hfail.
  destruct (initialize_returns =? LORAWAN_STATUS_OK) eqn:Hinit.
  2: { eexists. split;
         [ intros stimuli; unfold main; do 3 run_call;
           rewrite Hinit; cbn [negb]; reflexivity
         | cbn; repeat split; reflexivity ]. }
  destruct (set_confirmed_msg_retries_returns =? LORAWAN_STATUS_OK)
    eqn:Hretries.
  2: { eexists. split;
         [ intros stimuli; unfold main; do 3 run_call;
           rewrite Hinit; cbn [negb]; do 3 run_call;
           rewrite Hretries; cbn [negb]; reflexivity
         | cbn; repeat split; reflexivity ]. }
  destruct (disable_adaptive_datarate_returns =? LORAWAN_STATUS_OK)
    eqn:Hadr.
  2: { eexists. split;
         [ intros stimuli; unfold main; do 3 run_call;
           rewrite Hinit; cbn [negb]; do 3 run_call;
           rewrite Hretries; cbn [negb]; run_call;
           rewrite Hadr; cbn [negb]; reflexivity
         | cbn; repeat split; reflexivity ]. }
  destruct ((connect_returns =? LORAWAN_STATUS_OK)
            || (connect_returns =? LORAWAN_STATUS_CONNECT_IN_PROGRESS))
    eqn:Hconnect.
  1: { exfalso.
       apply Z.eqb_eq in Hinit, Hretries, Hadr.
       apply orb_true_iff in Hconnect. rewrite !Z.eqb_eq in Hconnect.
       tauto. }
  eexists. split;
    [ intros stimuli; unfold main; do 3 run_call;
      rewrite Hinit; cbn [negb]; do 3 run_call;
      rewrite Hretries; cbn [negb]; run_call;
      rewrite Hadr; cbn [negb]; do 2 run_call;
      rewrite Hconnect; reflexivity
    | cbn; repeat split; reflexivity ].
Qed.

Lemma deliver_count (s : stimulus) (w : World) :
  length (pending (world_of (deliver s w)))
  = (length (pending w) + arms s)%nat.
Proof.
  destruct s as [at_tick event|].
  - cbn [deliver]. erewrite bind_ok by reflexivity.
    match goal with
    | |- context [lora_event_handler event ?x] =>
        destruct (handler_appends event at_tick x)
          as (new & Hpending & Hnew)
    end.
    rewrite Hpending, length_app, Hnew. reflexivity.
  - rewrite expire_keeps_count. cbn [arms]. lia.
Qed.

(** A callback returns or stops the program; only the run loop can be
    left waiting. *)
Lemma deliver_completes (s : stimulus) (w w1 : World) :
  deliver s w <> Dispatching w1.
Proof.
  destruct s as [at_tick event|].
  - cbn [deliver]. erewrite bind_ok by reflexivity.
    destruct event; try discriminate.
    + unfold lora_event_handler. erewrite bind_ok by reflexivity.
      match goal with
      | |- receive_message ?x <> _ => set (w2 := x)
      end.
      destruct (receive_returns (length (received w2))) as [retcode data]
        eqn:Hret.
      destruct (Z.lt_ge_cases retcode 0) as [Hneg | Hpos].
      * destruct (receive_message_reports_failure w2 retcode data Hret Hneg)
          as (w3 & -> & _).
        discriminate.
      * destruct (Z.le_gt_cases retcode 50) as [Hfits | Hover].
        -- rewrite (receive_message_within_buffer w2 retcode data Hret)
             by lia.
           discriminate.
        -- rewrite (receive_message_beyond_buffer w2 retcode data Hret)
             by lia.
           discriminate.
    + unfold lora_event_handler. erewrite bind_ok by reflexivity.
      rewrite send_message_after. discriminate.
  - destruct (take_earliest (pending w)) as [[t rest]|] eqn:Htake.
    + rewrite (deliver_expire w t rest Htake). discriminate.
    + cbn [deliver]. rewrite Htake. discriminate.
Qed.

(** X11: send chains are never lost and never merged.  When a run is
    still dispatching after all its stimuli, the pending sends are exactly
    those pending at its start plus one for every [CONNECTED] and every
    [UPLINK_REQUIRED] event delivered: each such event starts a periodic
    chain of its own, whatever the sends return. *)
Theorem every_arming_event_starts_a_chain (stimuli : list stimulus) :
  forall w w' : World,
    dispatch_forever stimuli w = Dispatching w' ->
    length (pending w') = (length (pending w) + arming stimuli)%nat.
Proof.
  induction stimuli as [|s stimuli IH]; intros w w' Hrun;
    cbn [dispatch_forever] in Hrun; destruct (break_requested w);
    try discriminate.
  - injection Hrun as <-. unfold arming. cbn. lia.
  - pose proof (deliver_count s w) as Hcount.
    unfold bind in Hrun.
    pose proof (deliver_completes s w) as Hdone.
    destruct (deliver s w) as [[] w1|c w1|w1]; try discriminate.
    + cbn [world_of] in Hcount.
      rewrite (IH w1 w' Hrun), Hcount.
      unfold arming, list_sum. cbn [map fold_right]. lia.
    + now contradiction (Hdone w1).
Qed.

Lemma dispatch_keeps_setup (stimuli : list stimulus) :
  forall w : World,
    setup (world_of (dispatch_forever stimuli w)) = setup w.
Proof.
  induction stimuli as [|s stimuli IH]; intros w;
    cbn [dispatch_forever]; destruct (break_requested w);
    cbn [world_of]; auto.
  pose proof (deliver_frame s w) as (Hsetup & _).
  unfold bind.
  destruct (deliver s w) as [[] w1|c w1|w1]; cbn [world_of] in *; auto.
  now rewrite IH.
Qed.

(** X10: the configuration calls of a run are those of [main], made once
    and in its order, and they stop right after the first checked call
    that fails: no retry count is set on a stack that failed to
    initialise, no connect is requested unless the retry count and the
    data rate were configured, and no callback ever configures the stack
    again.  The status of [add_app_callbacks] changes nothing. *)
Theorem configuration_stops_at_first_failure (stimuli : list stimulus) :
  setup (world_of (main stimuli boot)) =
    [mbed_trace_init; hum_temp_enable; lorawan_initialize] ++
    (if initialize_returns =? LORAWAN_STATUS_OK then
       [lorawan_add_app_callbacks; lorawan_set_confirmed_msg_retries 3] ++
       (if set_confirmed_msg_retries_returns =? LORAWAN_STATUS_OK then
          lorawan_disable_adaptive_datarate ::
          (if disable_adaptive_datarate_returns =? LORAWAN_STATUS_OK then
             [lorawan_connect
                (mkConnect LORAWAN_DEV_EUI LORAWAN_APP_EUI
                           LORAWAN_APP_KEY 10)]
           else [])
        else [])
     else []).
Proof.
  unfold main. do 3 run_call.
  destruct (initialize_returns =? LORAWAN_STATUS_OK); cbn [negb];
    [|reflexivity].
  do 3 run_call.
  destruct (set_confirmed_msg_retries_returns =? LORAWAN_STATUS_OK);
    cbn [negb]; [|reflexivity].
  run_call.
  destruct (disable_adaptive_datarate_returns =? LORAWAN_STATUS_OK);
    cbn [negb]; [|reflexivity].
  do 2 run_call.
  destruct ((connect_returns =? LORAWAN_STATUS_OK)
            || (connect_returns =? LORAWAN_STATUS_CONNECT_IN_PROGRESS));
    [|reflexivity].
  run_call.
  rewrite world_of_then_ret, dispatch_keeps_setup. reflexivity.
Qed.

End Properties.

(** * Runs on the concrete board *)

(** C4 fails on the code: [main] discards the status of
    [add_app_callbacks].  In a run in which that call reports an error and
    every other startup call succeeds, [main] does not return [-1]: it
    prints its three progress lines and is dispatching. *)
Theorem main_ignores_add_app_callbacks_status :
  add_app_callbacks_returns (Environment := unregistered_run)
    <> LORAWAN_STATUS_OK (Platform := nucleo) /\
  main (E := unregistered_run) [] boot = Dispatching (started boot) /\
  console (P := nucleo) (started boot) =
    [("Mbed LoRaWANStack initialized \r\n", []);
     ("Adaptive data  rate (ADR) - disabled \r\n", []);
     ("Connection - In Progress ...\r\n", [])].
Proof.
  split; [discriminate|]. split; reflexivity.
Qed.

(** C1 as stated fails: after [CONNECTED] at tick 100 and
    [UPLINK_REQUIRED] at tick 105 two send timers are pending; the first
    was neither cancelled nor replaced when the second was posted. *)
Lemma two_send_timers_pending :
  pending
    (world_of
       (dispatch_forever (E := field_run)
          [Net 100 CONNECTED; Net 105 UPLINK_REQUIRED] boot))
  = [mkTimer 0 10100 cb_send_message; mkTimer 1 10105 cb_send_message].
Proof. reflexivity. Qed.

(** The second send of [field_run] is refused for the duty cycle: the retry
    is posted 3000 ms ahead, next to the timer of the first send. *)
Lemma failed_send_is_retried_once_witness :
  send_returns (Environment := field_run)
    (length (sent (after_send (E := field_run) boot))) = -1001 /\
  -1001 < 0 /\
  exists w',
    send_message (E := field_run) (after_send (E := field_run) boot)
      = Ok tt w' /\
    pending w' =
      [mkTimer 0 10000 cb_send_message; mkTimer 1 3000 cb_send_message].
Proof.
  split; [reflexivity|]. split; [lia|].
  destruct (failed_send_is_retried_once (E := field_run)
              (after_send (E := field_run) boot) (-1001)
              eq_refl ltac:(lia))
    as (w' & Hrun & Hblocked & _).
  exists w'. split; [exact Hrun|].
  destruct (Hblocked eq_refl) as [Hpending _]. exact Hpending.
Defined.

(** The first send of [field_run] takes 12 bytes. *)
Lemma connected_and_successful_send_schedule_witness :
  send_returns (Environment := field_run)
    (length (sent (P := nucleo) boot)) = 12 /\
  0 <= 12 /\
  (exists w',
     lora_event_handler (E := field_run) CONNECTED boot = Ok tt w' /\
     pending w' = [mkTimer 0 10000 cb_send_message]) /\
  (exists w',
     send_message (E := field_run) boot = Ok tt w' /\
     pending w' = [mkTimer 0 10000 cb_send_message] /\
     console w' =
       [("Temperature is %f\n", [Float (P := nucleo) 215]);
        ("%d bytes scheduled for transmission \r\n", [Int 12])]).
Proof.
  split; [reflexivity|]. split; [lia|].
  destruct (connected_and_successful_send_schedule (E := field_run))
    as (Hconnected & Hsend & _).
  split.
  - destruct (Hconnected boot) as (w' & Hrun & Hpending & _).
    exists w'. split; [exact Hrun | exact Hpending].
  - exact (Hsend boot 12 eq_refl ltac:(lia)).
Defined.

(** [DISCONNECTED] at tick 200 with a send pending: the timer expiry and
    the event that follow are not dispatched. *)
Lemma disconnected_stops_the_run_loop_witness :
  break_requested joined = false /\
  exists w',
    dispatch_forever (E := field_run)
      (Net 200 DISCONNECTED :: [Expire; Net 300 UPLINK_REQUIRED]) joined
      = Ok tt w' /\
    pending w' = [mkTimer 0 10100 cb_send_message] /\
    sent w' = [].
Proof.
  split; [reflexivity|].
  destruct (disconnected_stops_the_run_loop (E := field_run)
              200 [Expire; Net 300 UPLINK_REQUIRED] joined eq_refl)
    as (w' & Hrun & _ & Hpending & _ & Hsent & _).
  exists w'. split; [exact Hrun|]. split; [exact Hpending | exact Hsent].
Defined.

(** Three [UPLINK_REQUIRED] events at tick 5: the sends return 12 bytes,
    would-block and an error. *)
Lemma uplink_required_sends_every_time_witness :
  break_requested (P := nucleo) boot = false /\
  exists w',
    dispatch_forever (E := field_run)
      (repeat (Net 5 UPLINK_REQUIRED) 3) boot = Dispatching w' /\
    length (sent w') = 3%nat /\
    pending w' =
      [mkTimer 0 10005 cb_send_message;
       mkTimer 1 3005 cb_send_message;
       mkTimer 2 10005 cb_send_message].
Proof.
  split; [reflexivity|].
  destruct (uplink_required_sends_every_time (E := field_run)
              3 5 boot eq_refl)
    as (w' & Hrun & Hsent & Hpending).
  exists w'. split; [exact Hrun|].
  split; [rewrite Hsent; reflexivity | exact Hpending].
Defined.

(** The receive buffer is filled with [01 02]. *)
Lemma rx_done_reports_payload_or_error_witness :
  receive_returns (Environment := field_run)
    (length (received (P := nucleo) boot)) = (2, [1; 2]) /\
  (2 < 0 \/ (2 = Z.of_nat (length [1; 2]) /\ 2 <= 50)) /\
  exists w',
    lora_event_handler (E := field_run) RX_DONE boot = Ok tt w' /\
    console w' =
      [("Received message from Network Server \r\n", []);
       ("RX Data (%d bytes): ", [Int 2]);
       ("%02x ", [Int 1]);
       ("%02x ", [Int 2]);
       ("\r\n", [])].
Proof.
  split; [reflexivity|].
  assert (Hport : 2 < 0 \/ (2 = Z.of_nat (length [1; 2]) /\ 2 <= 50))
    by (right; split; [reflexivity | lia]).
  split; [exact Hport|].
  destruct (rx_done_reports_payload_or_error (E := field_run)
              boot 2 [1; 2] eq_refl Hport)
    as (w' & Hrun & _ & _ & _ & Hdata & _).
  exists w'. split; [exact Hrun|]. apply Hdata. lia.
Defined.

(** Three timer expiries after the join. *)
Lemma send_chain_never_ends_witness :
  pending joined <> [] /\
  break_requested joined = false /\
  exists w',
    dispatch_forever (E := field_run) (repeat Expire 3) joined
      = Dispatching w' /\
    length (pending w') = 1%nat /\
    length (sent w') = 3%nat.
Proof.
  split; [discriminate|]. split; [reflexivity|].
  destruct (send_chain_never_ends (E := field_run)) as (_ & Hchain).
  destruct (Hchain 3%nat joined ltac:(discriminate) eq_refl)
    as (w' & Hrun & Hpending & Hsent & _).
  exists w'. split; [exact Hrun|]. split; [exact Hpending | exact Hsent].
Defined.

(** The second receive of [field_run] has nothing to read. *)
Lemma failed_receive_only_logs_witness :
  let w := world_of (receive_message (E := field_run) boot) in
  receive_returns (Environment := field_run) (length (received w))
    = (-1001, []) /\
  -1001 < 0 /\
  exists w',
    receive_message (E := field_run) w = Ok tt w' /\
    pending w' = pending w /\
    sent w' = sent w /\
    length (console w') = S (length (console w)).
Proof.
  intros w. split; [reflexivity|]. split; [lia|].
  destruct (failed_receive_only_logs (E := field_run) w (-1001) []
              eq_refl ltac:(lia))
    as (w' & Hrun & Hconsole & _ & Hpending & _ & Hsent & _).
  exists w'. split; [exact Hrun|].
  split; [exact Hpending|]. split; [exact Hsent|].
  rewrite Hconsole, length_app. cbn [length]. lia.
Defined.

(** * The further properties on the concrete board *)

(** [connect] is refused: [main] returns [-1] although [CONNECTED] is
    ready to be delivered. *)
Lemma startup_failure_exits_before_dispatch_witness :
  (connect_returns (Environment := refused_run)
     <> LORAWAN_STATUS_OK (Platform := nucleo) /\
   connect_returns (Environment := refused_run)
     <> LORAWAN_STATUS_CONNECT_IN_PROGRESS (Platform := nucleo)) /\
  exists w',
    main (E := refused_run) [Net 0 CONNECTED] boot = Ok (-1) w' /\
    pending w' = [] /\
    sent w' = [].
Proof.
  assert (Hrefused :
            connect_returns (Environment := refused_run)
              <> LORAWAN_STATUS_OK (Platform := nucleo) /\
            connect_returns (Environment := refused_run)
              <> LORAWAN_STATUS_CONNECT_IN_PROGRESS (Platform := nucleo))
    by (split; discriminate).
  split; [exact Hrefused|].
  destruct (startup_failure_exits_before_dispatch (E := refused_run) boot
              (or_intror (or_intror (or_intror Hrefused))))
    as (w' & Hrun & Hpending & _ & Hsent & _).
  exists w'. split; [apply Hrun|]. split; [exact Hpending | exact Hsent].
Defined.

(** A run that joins and is disconnected returns [0]. *)
Lemma main_returns_zero_only_after_disconnected_witness :
  let stimuli := [Net 100 CONNECTED; Net 200 DISCONNECTED] in
  main (E := simulated_run) stimuli boot
    = Ok 0 (world_of (main (E := simulated_run) stimuli boot)) /\
  exists at_tick, In (Net at_tick DISCONNECTED) stimuli.
Proof.
  intros stimuli.
  assert (Hrun : main (E := simulated_run) stimuli boot
                 = Ok 0 (world_of (main (E := simulated_run) stimuli boot)))
    by (vm_compute; reflexivity).
  split; [exact Hrun|].
  destruct (main_returns_zero_only_after_disconnected (E := simulated_run)
              stimuli 0 _ Hrun)
    as [Habsurd | (_ & _ & Hevent)]; [discriminate | exact Hevent].
Defined.

(** The stack reports three bytes and delivers one: the byte and two
    zeros are printed. *)
Lemma receive_message_prints_buffer_prefix_witness :
  let w := world_of (receive_message (E := oversized_run) boot) in
  receive_returns (Environment := oversized_run) (length (received w))
    = (3, [9]) /\
  0 <= 3 <= 50 /\
  exists w',
    receive_message (E := oversized_run) w = Ok tt w' /\
    console w' =
      console w ++
        [("RX Data (%d bytes): ", [Int 3]);
         ("%02x ", [Int 9]); ("%02x ", [Int 0]); ("%02x ", [Int 0]);
         ("\r\n", [])].
Proof.
  intros w. split; [reflexivity|].
  assert (Hcount : 0 <= 3 <= 50) by lia.
  split; [exact Hcount|].
  destruct (receive_message_prints_buffer_prefix (E := oversized_run)
              w 3 [9] eq_refl Hcount)
    as (w' & Hrun & Hconsole & _).
  exists w'. split; [exact Hrun | exact Hconsole].
Defined.

(** A downlink of two bytes. *)
Lemma handler_returns_within_buffer_witness :
  (RX_DONE = RX_DONE ->
   fst (receive_returns (Environment := field_run)
          (length (received (P := nucleo) boot))) <= 50) /\
  exists w', lora_event_handler (E := field_run) RX_DONE boot = Ok tt w'.
Proof.
  assert (Hport : RX_DONE = RX_DONE ->
                  fst (receive_returns (Environment := field_run)
                         (length (received (P := nucleo) boot))) <= 50)
    by (intros _; cbn; lia).
  split; [exact Hport|].
  exact (handler_returns_within_buffer (E := field_run) RX_DONE boot Hport).
Defined.

(** A failed join and a transmission timeout after the join leave the
    pending send alone. *)
Lemma reported_failures_are_absorbed_witness :
  let events := [(150, JOIN_FAILURE); (160, TX_TIMEOUT)] in
  Forall (fun te => only_logs (snd te) = true) events /\
  break_requested joined = false /\
  exists w',
    dispatch_forever (E := field_run)
      (map (fun te => Net (fst te) (snd te)) events) joined
    = Dispatching w' /\
    pending w' = [mkTimer 0 10100 cb_send_message] /\
    sent w' = [] /\
    setup w' = [].
Proof.
  intros events.
  assert (Hlogs : Forall (fun te => only_logs (snd te) = true) events)
    by (repeat constructor).
  split; [exact Hlogs|]. split; [reflexivity|].
  destruct (reported_failures_are_absorbed (E := field_run)
              events joined Hlogs eq_refl)
    as (w' & Hrun & Hpending & _ & Hsent & _ & _ & _ & _ & Hsetup).
  exists w'. split; [exact Hrun|]. split; [exact Hpending|].
  split; [exact Hsent | exact Hsetup].
Defined.

(** A run without a join: a failed join, a spurious wake-up and a
    downlink. *)
Lemma nothing_is_sent_before_joining_witness :
  let stimuli := [Net 1 JOIN_FAILURE; Expire; Net 2 RX_DONE] in
  arming stimuli = 0%nat /\
  sent (world_of (main (E := field_run) stimuli boot)) = [].
Proof.
  intros stimuli. split; [reflexivity|].
  destruct (nothing_is_sent_before_joining (E := field_run) stimuli eq_refl)
    as (Hsent & _).
  exact Hsent.
Defined.

(** After the join at tick 100 the sends of [field_run] return 12 bytes,
    would-block and an error: the fourth send is due 23000 ms after the
    first. *)
Lemma single_chain_schedule_witness :
  pending joined = [mkTimer 0 10100 cb_send_message] /\
  break_requested joined = false /\
  tick joined <= 10100 /\
  exists w',
    dispatch_forever (E := field_run) (repeat Expire 3) joined
    = Dispatching w' /\
    map due (pending w') = [33100] /\
    tick w' = 23100.
Proof.
  split; [reflexivity|]. split; [reflexivity|].
  assert (Htick : tick joined <= 10100) by (cbn; lia).
  split; [exact Htick|].
  destruct (single_chain_schedule (E := field_run) 3 joined 0 10100
              eq_refl eq_refl Htick)
    as (w' & Hrun & Hdue & _ & Hlast & _).
  exists w'. split; [exact Hrun|]. split; [exact Hdue|].
  apply Hlast. lia.
Defined.

(** The join, two demanded uplinks and a timer expiry: three chains. *)
Lemma every_arming_event_starts_a_chain_witness :
  let stimuli :=
    [Net 100 CONNECTED; Net 105 UPLINK_REQUIRED;
     Net 110 UPLINK_REQUIRED; Expire] in
  let w' := world_of (dispatch_forever (E := simulated_run) stimuli boot) in
  dispatch_forever (E := simulated_run) stimuli boot = Dispatching w' /\
  length (pending w') = 3%nat.
Proof.
  intros stimuli w'.
  assert (Hrun : dispatch_forever (E := simulated_run) stimuli boot
                 = Dispatching w') by (vm_compute; reflexivity).
  split; [exact Hrun|].
  exact (every_arming_event_starts_a_chain (E := simulated_run)
           stimuli boot w' Hrun).
Defined.
